(** * LLM Nexus: the Streamlit front-end script [app.py]

    A shallow embedding of the script's control flow.  The script is a
    sequence of Streamlit calls interleaved with calls to five imported
    helpers ([login], [choose_models], [run_parallel], [check_limit],
    [generate_report]) and to [time], [os.path] and [pandas].  The imported
    helpers are an interface of this development ([Environment]); the script
    itself is the monadic program [script]: the import guard, the page
    set-up and the sidebar, which run at module level, followed by [main].

    Conventions.
    - A Python [str] is a Rocq [string]; its characters are read as code
      points below 256.
    - The clock and the elapsed time are exact rationals [Q]; the numbers of
      the metrics file are binary64 floats, as pandas holds them.
    - A [dict] that is only iterated ([responses]) is the list of its items in
      insertion order; [st.session_state] is a [gmap].
    - Every Streamlit element drawn and every helper invoked is recorded, in
      program order, in the event list a run produces.
    - Streamlit and pandas are libraries, not part of the script; the few
      functions of them the script uses are modelled after their documented
      behaviour in the modules [St] and [Pd]. *)

From Stdlib Require Import Ascii String OrderedTypeEx Sorted QArith Qround.
From stdpp Require Import gmap strings list fin_maps pretty.
From Stdlib Require Import Lqa.
From Stdlib Require Import Uint63 Floats.

Local Open Scope string_scope.
Local Open Scope list_scope.
Local Open Scope nat_scope.

(** A decimal float literal denotes the nearest binary64 number, as it does
    in Python. *)
#[local] Set Warnings "-inexact-float".

(** ** Python built-ins used by the script *)

Module Py.

(** [str.isspace] on one character, for code points below 256:
    TAB, LF, VT, FF, CR, FS, GS, RS, US, SPACE, NEL and NBSP. *)
Definition isspace (c : ascii) : bool :=
  let n := nat_of_ascii c in
  ((9 <=? n) && (n <=? 13)) || ((28 <=? n) && (n <=? 32))
  || (n =? 133) || (n =? 160).

Fixpoint lstrip_chars (l : list ascii) : list ascii :=
  match l with
  | [] => []
  | c :: r => if isspace c then lstrip_chars r else l
  end.

Definition rstrip_chars (l : list ascii) : list ascii :=
  rev (lstrip_chars (rev l)).

(** [s.strip()] *)
Definition strip (s : string) : string :=
  string_of_list_ascii (rstrip_chars (lstrip_chars (list_ascii_of_string s))).

(** Truth value of a [str]: the empty string is falsy. *)
Definition truthy (s : string) : bool :=
  match s with
  | EmptyString => false
  | String _ _ => true
  end.

(** [enumerate(xs)] *)
Fixpoint enumerate_from {A} (i : nat) (xs : list A) : list (nat * A) :=
  match xs with
  | [] => []
  | x :: r => (i, x) :: enumerate_from (S i) r
  end.

Definition enumerate {A} (xs : list A) : list (nat * A) := enumerate_from 0 xs.

(** Nearest integer, ties to even. *)
Definition round_half_even (x : Q) : Z :=
  let f := Qfloor x in
  match Qcompare (x - inject_Z f) (1 # 2) with
  | Lt => f
  | Gt => (f + 1)%Z
  | Eq => if Z.even f then f else (f + 1)%Z
  end.

(** [round(x, 2)] *)
Definition round2 (x : Q) : Q :=
  Qred (inject_Z (round_half_even (x * 100)) / 100).

(** The character U+0022, which the f-string of the model card contains. *)
Definition dquote : string := String (ascii_of_nat 34) EmptyString.

(** A line feed. *)
Definition nl : string := String (ascii_of_nat 10) EmptyString.

Fixpoint spaces (n : nat) : string :=
  match n with
  | O => EmptyString
  | S k => String (ascii_of_nat 32) (spaces k)
  end.

End Py.

(** ** pandas: the frame of the metrics file and the group mean

    A frame is what [read_csv] returns for the metrics file, restricted to
    the four columns the script reads, within these conventions.
    - The [model] column has dtype object: a label is a string, or it is
      missing ([None]); [read_csv] reads an empty cell and the texts NA, NaN,
      null, None and the like as missing.  A column whose cells all read as
      numbers gets a numeric dtype and is outside the model.
    - The columns [timestamp], [latency] and [response_length] are numeric;
      their cells are binary64 numbers (the values a float64 column holds,
      and the values the mean converts an integer column to); a missing
      cell is NaN.
    - A file without one of the four columns, or with text in a numeric
      column, is outside the model.
    The group mean is the one of pandas 2 for a float64 column: per group it
    keeps a compensated (Kahan) sum and the number of cells that are not
    NaN. *)

Module Pd.

Record Row := {
  timestamp : float;
  model : option string;
  latency : float;
  response_length : float
}.

(** Running aggregate of one group: the sum, the compensation of the
    summation and the number of cells observed. *)
Record Acc := {
  sumx : float;
  compensation : float;
  nobs : nat
}.

Definition acc0 : Acc :=
  {| sumx := 0%float; compensation := 0%float; nobs := 0 |}.

(** One cell is added to the aggregate of its group.  A NaN cell is not
    observed.  When the compensation comes out as NaN (after an infinite
    cell), it is set back to 0. *)
Definition acc_add (val : float) (a : Acc) : Acc :=
  if PrimFloat.is_nan val then a
  else
    let y := (val - compensation a)%float in
    let t := (sumx a + y)%float in
    let c := (t - sumx a - y)%float in
    {| sumx := t;
       compensation := if PrimFloat.is_nan c then 0%float else c;
       nobs := S (nobs a) |}.

(** A count as a binary64 number (counts stay below 2^53). *)
Definition count_float (n : nat) : float :=
  PrimFloat.of_uint63 (Uint63.of_Z (Z.of_nat n)).

(** The mean of a group: NaN when no cell was observed. *)
Definition acc_mean (a : Acc) : float :=
  match nobs a with
  | O => PrimFloat.nan
  | S _ => (sumx a / count_float (nobs a))%float
  end.

(** Groups are kept sorted by label, as [groupby] (sort=True) returns
    them. *)
Fixpoint group_add (k : string) (val : float) (groups : list (string * Acc))
  : list (string * Acc) :=
  match groups with
  | [] => [(k, acc_add val acc0)]
  | (k', a) :: rest =>
      match String.compare k k' with
      | Eq => (k', acc_add val a) :: rest
      | Lt => (k, acc_add val acc0) :: groups
      | Gt => (k', a) :: group_add k val rest
      end
  end.

(** [df.groupby("model")[col].mean()]: a series indexed by label.  A row
    whose label is missing belongs to no group (dropna=True). *)
Definition groupby_model_mean (col : Row -> float) (df : list Row)
  : list (string * float) :=
  map (fun g => (fst g, acc_mean (snd g)))
      (fold_left (fun groups r =>
                    match model r with
                    | Some k => group_add k (col r) groups
                    | None => groups
                    end)
                 df []).

(** Lookup in a series by index label. *)
Fixpoint series_get {V} (k : string) (s : list (string * V)) : option V :=
  match s with
  | [] => None
  | (k', v) :: rest => if String.eqb k k' then Some v else series_get k rest
  end.

End Pd.

(** ** Streamlit: containers, elements and the script monad *)

Module St.

(** Where an element is drawn: the path of enclosing blocks, outermost
    first; the empty path is the page body. *)
Inductive Block : Type :=
| Sidebar
| Column (i : nat)
| Tab (i : nat)
| StatusBox.

Definition Container : Type := list Block.

Inductive Element : Type :=
| PageConfig (page_title page_icon layout initial_sidebar_state : string)
| Markdown (body : string) (unsafe_allow_html : bool)
| Success (body : string)
| Error (body : string)
| Warning (body : string)
| Divider
| Caption (body : string)
| Write (body : string)
| Slider (label : string)
| NumberInput (label : string)
| Selectbox (label : string) (options : list string)
| TextArea (label : string)
| Button (label : string)
| Metric (label value delta : string)
| Columns (weights : list nat)
| Tabs (labels : list string)
| Status (label : string)
| Json (obj : list (string * string))
| BarChart (series : list (string * float))
| LineChart (series : list (Z * nat)).

(** Calls that leave the script. *)
Inductive Call : Type :=
| CallLogin
| CallCheckLimit (user : string)
| CallChooseModels (task : string)
| CallRunParallel (prompt : string) (models : list string)
| CallGenerateReport (prompt : string) (responses : list (string * string))
| CallTime
| CallPathExists (path : string)
| CallReadCsv (path : string).

Inductive Event : Type :=
| Draw (where_ : Container) (el : Element)
| Invoke (c : Call).

(** How a block of the script ends: normally, by [st.stop()], or by an
    exception that nothing in the script catches. *)
Inductive Res (A : Type) : Type :=
| Ret (a : A)
| Halt
| Raise (exn : string).
Arguments Ret {A} a.
Arguments Halt {A}.
Arguments Raise {A} exn.

(** What the browser sends with a rerun: the widget values. *)
Record Inputs := {
  temperature : Q;
  max_tokens_value : Z;
  objective_index : nat;
  prompt_text : string;
  run_clicked : bool
}.

(** The state a run threads: the widget values (read only), the session
    dictionary, and the state [world] of everything outside the script
    (rate-limit store, files, clock, model providers). *)
Record State (S : Type) := {
  widgets : Inputs;
  session_state : gmap string string;
  world : S
}.
Arguments widgets {S} _.
Arguments session_state {S} _.
Arguments world {S} _.

Definition with_world {S} (st : State S) (w : S) : State S :=
  {| widgets := widgets st; session_state := session_state st; world := w |}.

Definition with_session {S} (st : State S) (ss : gmap string string) : State S :=
  {| widgets := widgets st; session_state := ss; world := world st |}.

Definition M (S A : Type) : Type := State S -> Res A * State S * list Event.

Definition ret {S A} (a : A) : M S A := fun st => (Ret a, st, []).

Definition bind {S A B} (m : M S A) (k : A -> M S B) : M S B :=
  fun st =>
    match m st with
    | (Ret a, st1, out1) =>
        match k a st1 with
        | (r, st2, out2) => (r, st2, out1 ++ out2)
        end
    | (Halt, st1, out1) => (Halt, st1, out1)
    | (Raise e, st1, out1) => (Raise e, st1, out1)
    end.

(** [st.stop()] *)
Definition stop {S A} : M S A := fun st => (Halt, st, []).

Definition raise {S A} (e : string) : M S A := fun st => (Raise e, st, []).

Definition draw {S} (c : Container) (el : Element) : M S unit :=
  fun st => (Ret tt, st, [Draw c el]).

Definition invoke {S} (c : Call) : M S unit :=
  fun st => (Ret tt, st, [Invoke c]).

Definition get_widgets {S} : M S Inputs := fun st => (Ret (widgets st), st, []).

Definition get_session {S} : M S (gmap string string) :=
  fun st => (Ret (session_state st), st, []).

(** Run a helper that works on the outside world only. *)
Definition on_world {S A} (f : S -> Res A * S) : M S A :=
  fun st =>
    match f (world st) with
    | (r, w) => (r, with_world st w, [])
    end.

(** Run a helper that only reads the outside world. *)
Definition read_world {S A} (f : S -> Res A) : M S A :=
  fun st => (f (world st), st, []).

Declare Scope script_scope.
Delimit Scope script_scope with script.
Notation "x <- m ;; k" := (bind m (fun x => k))
  (at level 20, m at level 99, k at level 200, only parsing) : script_scope.
Notation "m ;; k" := (bind m (fun _ => k))
  (at level 100, k at level 200, only parsing, right associativity) : script_scope.

Local Open Scope script_scope.

(** *** Widgets and layout *)

Definition slider {S} (c : Container) (label : string) : M S Q :=
  draw c (Slider label) ;; w <- get_widgets ;; ret (temperature w).

Definition number_input {S} (c : Container) (label : string) : M S Z :=
  draw c (NumberInput label) ;; w <- get_widgets ;; ret (max_tokens_value w).

(** [st.selectbox(label, options)] returns the option at the index the
    browser selected. *)
Definition selectbox {S} (c : Container) (label : string) (options : list string)
  : M S string :=
  draw c (Selectbox label options) ;;
  w <- get_widgets ;;
  match nth_error options (objective_index w) with
  | Some o => ret o
  | None => raise "IndexError"
  end.

Definition text_area {S} (c : Container) (label : string) : M S string :=
  draw c (TextArea label) ;; w <- get_widgets ;; ret (prompt_text w).

Definition button {S} (c : Container) (label : string) : M S bool :=
  draw c (Button label) ;; w <- get_widgets ;; ret (run_clicked w).

(** [st.columns(spec)] for a list of weights: Streamlit raises when the
    list is empty or holds a weight that is not positive; otherwise it
    draws the row and returns one container per weight. *)
Definition columns_spec {S} (c : Container) (weights : list nat)
  : M S (list Container) :=
  if (length weights =? 0) || existsb (fun w => w =? 0) weights then
    raise "StreamlitAPIException"
  else
    draw c (Columns weights) ;;
    ret (map (fun i => c ++ [Column i]) (seq 0 (length weights))).

(** [st.columns(n)] for an integer [n] stands for [n] weights of 1. *)
Definition columns {S} (c : Container) (n : nat) : M S (list Container) :=
  columns_spec c (repeat 1 n).

(** [st.tabs(labels)] *)
Definition tabs {S} (c : Container) (labels : list string) : M S (list Container) :=
  match labels with
  | [] => raise "StreamlitAPIException"
  | _ :: _ =>
      draw c (Tabs labels) ;;
      ret (map (fun i => c ++ [Tab i]) (seq 0 (length labels)))
  end.

(** [xs[i]] on a list *)
Definition index {S A} (xs : list A) (i : nat) : M S A :=
  match nth_error xs i with
  | Some x => ret x
  | None => raise "IndexError"
  end.

(** A [for] loop over a list. *)
Fixpoint for_each {S A} (xs : list A) (body : A -> M S unit) : M S unit :=
  match xs with
  | [] => ret tt
  | x :: r => body x ;; for_each r body
  end.

End St.

Import St.
Local Open Scope script_scope.

(** ** The imported helpers and the operating system *)

(** The five helpers the script imports ([auth.login], [utils.router],
    [utils.parallel], [utils.rate_limiter], [utils.report]) and the library
    calls that reach outside the process.  [import_error] is the exception
    the imports of lines 7-12 raise, if they raise one.  Each helper works on
    the world state [S]; [login] also reads and writes the session
    dictionary.  Any of the helpers may stop the script or raise.

    The two time-series functions of pandas the script uses are taken as they
    are, without a model of their own: [to_datetime column] is
    [pd.to_datetime(column, unit="s")], which returns the instants of the
    cells (in nanoseconds since the epoch, [None] for a missing cell) or
    raises, as for a number outside the range of datetimes; and
    [resample_count frame] is
    [frame.set_index("timestamp").resample("1min").count()["model"]] for the
    frame given by the instants and the labels of its rows, which returns the
    series of counts or raises. *)
Class Environment (S : Type) := {
  import_error : option string;
  login : gmap string string -> S -> Res unit * gmap string string * S;
  check_limit : string -> S -> Res bool * S;
  choose_models : string -> S -> Res (list string) * S;
  run_parallel : string -> list string -> S -> Res (list (string * string)) * S;
  generate_report : string -> list (string * string) -> S -> Res unit * S;
  time_time : S -> Q * S;
  path_exists : string -> S -> bool;
  read_csv : string -> S -> Res (list Pd.Row);
  to_datetime : list float -> Res (list (option Z));
  resample_count : list (option Z * option string) -> Res (list (Z * nat));
  float_str : Q -> string
}.

(** ** The script *)

Definition style_sheet : string :=
  "
<style>
@import url('https://fonts.googleapis.com/css2?family=Inter:wght@400;600;700&display=swap');

html, body, [class*=" +:+ Py.dquote +:+ "css" +:+ Py.dquote +:+ "] {
    font-family: 'Inter', sans-serif;
}

.stApp {
    background-color: #020617;
    color: #e5e7eb;
}

/* Headings */
.app-title {
    font-size: 2.6rem;
    font-weight: 700;
    color: #e5e7eb;
}
.app-subtitle {
    color: #9ca3af;
    margin-bottom: 2rem;
}

/* Cards */
.card {
    background: #020617;
    border: 1px solid #1f2937;
    border-radius: 14px;
    padding: 20px;
}

/* Inputs */
textarea, div[data-baseweb=" +:+ Py.dquote +:+ "select" +:+ Py.dquote +:+ "] > div {
    background-color: #020617 !important;
    border: 1px solid #1f2937 !important;
    border-radius: 10px !important;
    color: #e5e7eb !important;
}
textarea:focus {
    border-color: #7dd3fc !important;
    box-shadow: 0 0 0 1px rgba(125, 211, 252, 0.35);
}

/* Buttons */
div.stButton > button {
    background: linear-gradient(135deg, #7dd3fc, #60a5fa);
    color: #020617;
    border: none;
    border-radius: 10px;
    padding: 0.8rem;
    font-weight: 600;
    width: 100%;
    transition: all 0.2s ease;
}
div.stButton > button:hover {
    filter: brightness(1.05);
}

/* Model result card */
.model-card {
    border: 1px solid #1f2937;
    border-radius: 14px;
    padding: 18px;
    background-color: #020617;
    height: 100%;
}

/* Model title */
.model-title {
    font-size: 0.85rem;
    letter-spacing: 1px;
    text-transform: uppercase;
    color: #7dd3fc;
    font-weight: 700;
    margin-bottom: 10px;
}

/* Metrics */
div[data-testid=" +:+ Py.dquote +:+ "metric-container" +:+ Py.dquote +:+ "] {
    background-color: #020617;
    border: 1px solid #1f2937;
    border-radius: 10px;
    padding: 12px;
}
</style>
".

Definition objectives : list string :=
  ["General"; "Coding"; "Fast Response"; "Cost Saving"].

Definition metrics_file : string := "data/metrics/metrics.csv".

Definition div_open (class : string) : string :=
  "<div class=" +:+ Py.dquote +:+ class +:+ Py.dquote +:+ ">".

(** The f-string of one model card (lines 193-198). *)
Definition model_card (model text : string) : string :=
  Py.nl +:+ Py.spaces 24 +:+ div_open "model-card" +:+
  Py.nl +:+ Py.spaces 28 +:+ div_open "model-title" +:+ model +:+ "</div>" +:+
  Py.nl +:+ Py.spaces 28 +:+ text +:+
  Py.nl +:+ Py.spaces 24 +:+ "</div>" +:+
  Py.nl +:+ Py.spaces 24.

Section Script.
Context {S : Type} {env : Environment S}.

(** *** Calls to the helpers, each recorded before it runs *)

Definition call_login : M S unit :=
  invoke CallLogin ;;
  fun st =>
    match login (session_state st) (world st) with
    | (r, ss, w) => (r, with_world (with_session st ss) w, [])
    end.

Definition call_check_limit (user : string) : M S bool :=
  invoke (CallCheckLimit user) ;; on_world (check_limit user).

Definition call_choose_models (task : string) : M S (list string) :=
  invoke (CallChooseModels task) ;; on_world (choose_models task).

Definition call_run_parallel (prompt : string) (models : list string)
  : M S (list (string * string)) :=
  invoke (CallRunParallel prompt models) ;; on_world (run_parallel prompt models).

Definition call_generate_report (prompt : string) (responses : list (string * string))
  : M S unit :=
  invoke (CallGenerateReport prompt responses) ;;
  on_world (generate_report prompt responses).

Definition call_time : M S Q :=
  invoke CallTime ;; on_world (fun w => (Ret (fst (time_time w)), snd (time_time w))).

Definition call_path_exists (path : string) : M S bool :=
  invoke (CallPathExists path) ;; read_world (fun w => Ret (path_exists path w)).

Definition call_read_csv (path : string) : M S (list Pd.Row) :=
  invoke (CallReadCsv path) ;; read_world (read_csv path).

(** [st.session_state.user] *)
Definition session_user : M S string :=
  ss <- get_session ;;
  match ss !! "user" with
  | Some u => ret u
  | None => raise "AttributeError"
  end.

(** *** Lines 7-15: the imports; a failure is shown and stops the script *)
Definition imports : M S unit :=
  match import_error with
  | Some e => draw [] (Error e) ;; stop
  | None => ret tt
  end.

(** *** Lines 17-111: page configuration and style sheet *)
Definition page_setup : M S unit :=
  draw [] (PageConfig "LLM Nexus" "⚡" "wide" "expanded") ;;
  draw [] (Markdown style_sheet true).

(** *** Lines 114-127: the sidebar *)
Definition sidebar : M S unit :=
  draw [Sidebar] (Markdown "## ⚙️ Control Panel" false) ;;
  ss <- get_session ;;
  match ss !! "user" with
  | Some u => draw [Sidebar] (Success ("👤 " +:+ u))
  | None => ret tt
  end ;;
  draw [Sidebar] Divider ;;
  draw [Sidebar] (Markdown "### Model Settings" false) ;;
  model_temp <- slider [Sidebar] "Temperature" ;;
  max_tokens <- number_input [Sidebar] "Max Tokens" ;;
  draw [Sidebar] Divider ;;
  draw [Sidebar] (Caption "LLM Nexus • Enterprise v2.1.0").

(** *** Lines 188-200: the Visual tab *)
Definition card_into (cols : list Container) (entry : nat * (string * string))
  : M S unit :=
  let '(i, (model, text)) := entry in
  col <- index cols i ;;
  draw col (Markdown (model_card model text) true).

Definition tab_visual (tab1 : Container) (responses : list (string * string))
  : M S unit :=
  cols <- columns tab1 (length responses) ;;
  for_each (Py.enumerate responses) (card_into cols).

(** *** Lines 202-203: the Raw JSON tab *)
Definition tab_json (tab2 : Container) (responses : list (string * string))
  : M S unit :=
  draw tab2 (Json responses).

(** *** Lines 205-210: the Cost tab *)
Definition tab_cost (tab3 : Container) (prompt : string)
  (responses : list (string * string)) (elapsed : Q) : M S unit :=
  call_generate_report prompt responses ;;
  draw tab3 (Success "Cost report generated.") ;;
  cs <- columns tab3 2 ;;
  c1 <- index cs 0 ;;
  c2 <- index cs 1 ;;
  draw c1 (Metric "Estimated Cost" "$0.0042" "-12%") ;;
  draw c2 (Metric "Avg Latency" (float_str elapsed +:+ "s") "Fast").

(** *** Lines 212-222: the Performance tab.  Line 218 replaces the timestamp
    column by its instants; the two group means read the other columns. *)
Definition tab_performance (tab4 : Container) : M S unit :=
  present <- call_path_exists metrics_file ;;
  if negb present then
    draw tab4 (Warning "No metrics available.")
  else
    df <- call_read_csv metrics_file ;;
    instants <- read_world (fun _ => to_datetime (map Pd.timestamp df)) ;;
    draw tab4 (BarChart (Pd.groupby_model_mean Pd.latency df)) ;;
    draw tab4 (BarChart (Pd.groupby_model_mean Pd.response_length df)) ;;
    counts <- read_world (fun _ =>
                resample_count (combine instants (map Pd.model df))) ;;
    draw tab4 (LineChart counts).

(** *** Lines 164-222: the body of [if run_btn:] *)
Definition run_analysis (task prompt : string) : M S unit :=
  user <- session_user ;;
  allowed <- call_check_limit user ;;
  (if negb allowed then
     draw [] (Error "Rate limit reached.") ;; stop
   else ret tt) ;;
  (if negb (Py.truthy (Py.strip prompt)) then
     draw [] (Warning "Please enter a prompt.") ;; stop
   else ret tt) ;;
  draw [] (Status "Running model orchestration...") ;;
  models <- call_choose_models task ;;
  start <- call_time ;;
  responses <- call_run_parallel prompt models ;;
  finish <- call_time ;;
  let elapsed := Py.round2 (finish - start) in
  draw [] (Markdown "## 📊 Results" false) ;;
  ts <- tabs [] ["Visual"; "Raw JSON"; "Cost"; "Performance"] ;;
  tab1 <- index ts 0 ;;
  tab2 <- index ts 1 ;;
  tab3 <- index ts 2 ;;
  tab4 <- index ts 3 ;;
  tab_visual tab1 responses ;;
  tab_json tab2 responses ;;
  tab_cost tab3 prompt responses elapsed ;;
  tab_performance tab4.

(** *** Lines 130-222: [main] *)
Definition main : M S unit :=
  call_login ;;
  ss <- get_session ;;
  (if bool_decide (is_Some (ss !! "user")) then ret tt else stop) ;;
  draw [] (Markdown (div_open "app-title" +:+ "⚡ LLM Nexus</div>") true) ;;
  draw [] (Markdown (div_open "app-subtitle" +:+
                     "Enterprise-grade model routing & cost intelligence.</div>")
               true) ;;
  cols <- columns_spec [] [1; 3] ;;
  col_left <- index cols 0 ;;
  col_right <- index cols 1 ;;
  draw col_left (Markdown (div_open "card") true) ;;
  task <- selectbox col_left "Target Objective" objectives ;;
  draw col_left (Metric "Active Models" "3" "Operational") ;;
  draw col_left (Markdown "</div>" true) ;;
  draw col_right (Markdown (div_open "card") true) ;;
  prompt <- text_area col_right "Input Prompt" ;;
  draw col_right (Markdown "</div>" true) ;;
  draw [] (Write "") ;;
  run_btn <- button [] "🚀 Run Analysis" ;;
  if run_btn then run_analysis task prompt else ret tt.

(** *** The whole script, as Streamlit reruns it *)
Definition script : M S unit :=
  imports ;; page_setup ;; sidebar ;; main.

(** A run from a given browser input, session and world. *)
Definition run (m : M S unit) (i : Inputs) (ss : gmap string string) (w : S)
  : Res unit * State S * list Event :=
  m {| widgets := i; session_state := ss; world := w |}.

Definition outcome (r : Res unit * State S * list Event) : Res unit := fst (fst r).
Definition final (r : Res unit * State S * list Event) : State S := snd (fst r).
Definition events (r : Res unit * State S * list Event) : list Event := snd r.

End Script.

(** ** A reference environment

    The helper modules are not part of the script.  The environment below
    instantiates [Environment] with the behaviour their design describes; it
    serves to run the script on concrete requests. *)

Module Demo.

Record World := {
  now : Q;
  account : option string;
  windows : gmap string (Q * nat);
  recording : bool;
  files : gmap string (list Pd.Row)
}.

Definition limit : nat := 5.
Definition window_length : Q := 60.

Definition set_window (identity : string) (v : Q * nat) (w : World) : World :=
  {| now := now w; account := account w;
     windows := <[identity := v]> (windows w);
     recording := recording w; files := files w |}.

(** Modelled from the spec: the login screen of [auth.login], which is not
    part of the script; it stores the signed-in account, when there is one,
    under the key [user] of the session dictionary. *)
Definition login (ss : gmap string string) (w : World)
  : Res unit * gmap string string * World :=
  match account w with
  | Some u => (Ret tt, <["user" := u]> ss, w)
  | None => (Ret tt, ss, w)
  end.

(** Modelled from the spec: [utils.rate_limiter.check_limit], the
    RateLimiter of section 4.1.  Without a window, or with an expired one, a
    new window starts with count 1 and the request is allowed; otherwise the
    count is incremented and the request is allowed when the count does not
    exceed the limit. *)
Definition check_limit (identity : string) (w : World) : Res bool * World :=
  match windows w !! identity with
  | Some (start, count) =>
      if Qle_bool window_length (now w - start) then
        (Ret true, set_window identity (now w, 1) w)
      else
        (Ret (S count <=? limit), set_window identity (start, S count) w)
  | None => (Ret true, set_window identity (now w, 1) w)
  end.

(** Requests counted for an identity in its current window. *)
Definition charged (identity : string) (w : World) : nat :=
  match windows w !! identity with
  | Some (_, count) => count
  | None => 0
  end.

(** Modelled from the spec: [utils.router.choose_models], the ModelRouter of
    section 4.2, a fixed priority-ordered list of models per objective. *)
Definition choose_models (task : string) (w : World) : Res (list string) * World :=
  (Ret (if String.eqb task "Coding" then ["coder-large"; "coder-small"]
        else if String.eqb task "Fast Response" then ["flash"]
        else if String.eqb task "Cost Saving" then ["mini"; "flash"]
        else ["general-large"; "flash"; "mini"]),
   w).

(** Modelled from the spec: [utils.parallel.run_parallel], the
    ParallelDispatcher of section 4.3 with stub backends: one entry per
    selected model, in selection order; an empty selection is fatal.  The
    call takes a quarter of a second. *)
Definition run_parallel (prompt : string) (models : list string) (w : World)
  : Res (list (string * string)) * World :=
  match models with
  | [] => (Raise "ValueError", w)
  | _ :: _ =>
      (Ret (map (fun m => (m, m +:+ " answers: " +:+ prompt)) models),
       {| now := now w + (1 # 4); account := account w;
          windows := windows w; recording := recording w; files := files w |})
  end.

(** A non-negative clock reading as a binary64 number. *)
Definition float_of_Q (q : Q) : float :=
  (PrimFloat.of_uint63 (Uint63.of_Z (Qnum q)) /
   PrimFloat.of_uint63 (Uint63.of_Z (Z.pos (Qden q))))%float.

(** Modelled from the spec: [utils.report.generate_report], the
    MetricsRecorder of section 4.4: one record per response is appended to
    the metrics file; telemetry is best effort, so nothing is written
    while recording is off. *)
Definition generate_report (prompt : string) (responses : list (string * string))
  (w : World) : Res unit * World :=
  let records :=
    map (fun r => {| Pd.timestamp := float_of_Q (now w);
                     Pd.model := Some (fst r);
                     Pd.latency := 0.25%float;
                     Pd.response_length :=
                       Pd.count_float (String.length (snd r)) |})
        responses in
  (Ret tt,
   if recording w then
     {| now := now w; account := account w; windows := windows w;
        recording := true;
        files := <[metrics_file := default [] (files w !! metrics_file) ++ records]>
                   (files w) |}
   else w).

Definition time_time (w : World) : Q * World := (now w, w).

Definition path_exists (path : string) (w : World) : bool :=
  bool_decide (is_Some (files w !! path)).

Definition read_csv (path : string) (w : World) : Res (list Pd.Row) :=
  match files w !! path with
  | Some rows => Ret rows
  | None => Raise "FileNotFoundError"
  end.

(** Whole nanoseconds in a finite number of seconds (towards zero). *)
Definition nanoseconds (t : float) : option Z :=
  match Prim2SF t with
  | S754_zero _ => Some 0%Z
  | S754_finite s m e =>
      let n := (Z.pos m * 1000000000)%Z in
      let v := if (0 <=? e)%Z then (n * 2 ^ e)%Z else (n / 2 ^ (- e))%Z in
      Some (if s then (- v)%Z else v)
  | _ => None
  end.

(** A datetime holds a signed 64-bit number of nanoseconds. *)
Definition in_bounds (t : float) : bool :=
  PrimFloat.is_nan t ||
  match nanoseconds t with
  | Some n => ((- 2 ^ 63 <? n) && (n <? 2 ^ 63))%Z
  | None => false
  end.

(** A sample of [pd.to_datetime(column, unit="s")]: a missing cell has no
    instant, and a number of seconds outside the range of datetimes is an
    error. *)
Definition to_datetime (column : list float) : Res (list (option Z)) :=
  if forallb in_bounds column then Ret (map nanoseconds column)
  else Raise "OutOfBoundsDatetime".

Definition minute (ns : Z) : Z := (ns / 60000000000)%Z.

(** A sample of [set_index("timestamp").resample("1min").count()["model"]]:
    one bin per minute from the earliest to the latest instant, indexed by
    the minute; a bin counts its rows whose label is present. *)
Definition resample_count (frame : list (option Z * option string))
  : Res (list (Z * nat)) :=
  match omap (fun r => minute <$> fst r) frame with
  | [] => Ret []
  | m0 :: rest =>
      let lo := fold_left Z.min rest m0 in
      let hi := fold_left Z.max rest m0 in
      Ret (map (fun i =>
                  let b := (lo + Z.of_nat i)%Z in
                  (b, length (List.filter
                                (fun r => match r with
                                          | (Some ns, Some _) => (minute ns =? b)%Z
                                          | _ => false
                                          end)
                                frame)))
               (seq 0 (S (Z.to_nat (hi - lo)))))
  end.

(** [str] of a non-negative float with at most two decimals. *)
Definition float_str (x : Q) : string :=
  let h := Z.to_nat (Qfloor (x * 100)) in
  let frac := h mod 100 in
  pretty (h / 100) +:+ "." +:+
  (if frac mod 10 =? 0 then pretty (frac / 10)
   else if frac <? 10 then "0" +:+ pretty frac
   else pretty frac).

#[export] Instance env : Environment World :=
  Build_Environment World None login check_limit choose_models run_parallel
    generate_report time_time path_exists read_csv to_datetime resample_count
    float_str.

(** *** Sample requests and worlds *)

Definition request : Inputs := {|
  temperature := 7 # 10;
  max_tokens_value := 1024;
  objective_index := 1;
  prompt_text := "write a sort function";
  run_clicked := true
|}.

Definition blank_request : Inputs := {|
  temperature := 7 # 10;
  max_tokens_value := 1024;
  objective_index := 1;
  prompt_text := "   ";
  run_clicked := true
|}.

(** The same request with other model settings. *)
Definition request_cold : Inputs := {|
  temperature := 0;
  max_tokens_value := 256;
  objective_index := 1;
  prompt_text := "write a sort function";
  run_clicked := true
|}.

(** The same request for the objective General. *)
Definition request_general : Inputs := {|
  temperature := 7 # 10;
  max_tokens_value := 1024;
  objective_index := 0;
  prompt_text := "write a sort function";
  run_clicked := true
|}.

(** What the stub backends answer to the sample request. *)
Definition answers : list (string * string) :=
  [ ("coder-large", "coder-large answers: write a sort function");
    ("coder-small", "coder-small answers: write a sort function") ].

(** [u1] is signed in, has made no request yet, and no metrics exist. *)
Definition world0 : World := {|
  now := 1000;
  account := Some "u1";
  windows := ∅;
  recording := true;
  files := ∅
|}.

(** [u1] has used up the window that started at time 990. *)
Definition world_limited : World := {|
  now := 1000;
  account := Some "u1";
  windows := {[ "u1" := (990%Q, limit) ]};
  recording := true;
  files := ∅
|}.

(** [u1] is signed in and the metrics recorder is switched off. *)
Definition world_unrecorded : World := {|
  now := 1000;
  account := Some "u1";
  windows := ∅;
  recording := false;
  files := ∅
|}.

(** Three measurements of one model. *)
Definition three_rows : list Pd.Row :=
  [ {| Pd.timestamp := 960%float; Pd.model := Some "A";
       Pd.latency := 0.1%float; Pd.response_length := 10%float |};
    {| Pd.timestamp := 970%float; Pd.model := Some "A";
       Pd.latency := 0.2%float; Pd.response_length := 20%float |};
    {| Pd.timestamp := 980%float; Pd.model := Some "A";
       Pd.latency := 0.3%float; Pd.response_length := 30%float |} ].

(** [u1] is signed in, the recorder is switched off and the metrics file
    holds the three measurements. *)
Definition world_measured : World := {|
  now := 1000;
  account := Some "u1";
  windows := ∅;
  recording := false;
  files := {[ metrics_file := three_rows ]}
|}.

(** Nobody is signed in. *)
Definition world_anonymous : World := {|
  now := 1000;
  account := None;
  windows := ∅;
  recording := true;
  files := ∅
|}.

End Demo.

(** ** Vocabulary of the properties *)

(** The records of one model, in file order: the rows labelled with it. *)
Definition records_of (m : string) (df : list Pd.Row) : list Pd.Row :=
  filter (fun r => Pd.model r = Some m) df.

(** The cells of a column that hold a number. *)
Definition observed (cells : list float) : list float :=
  List.filter (fun x => negb (PrimFloat.is_nan x)) cells.

(** One step of compensated summation, on the pair of the running sum and
    its compensation. *)
Definition compensated_step (sc : float * float) (x : float) : float * float :=
  let y := (x - snd sc)%float in
  let t := (fst sc + y)%float in
  let c := (t - fst sc - y)%float in
  (t, if PrimFloat.is_nan c then 0%float else c).

(** The compensated sum of a list of binary64 numbers, taken in order. *)
Definition compensated_sum (xs : list float) : float :=
  fst (fold_left compensated_step xs (0%float, 0%float)).

(** The binary64 mean of the cells of a column: the compensated sum of the
    cells that hold a number over their count, rounded once more by the
    division; NaN when no cell holds a number. *)
Definition binary64_mean (cells : list float) : float :=
  match observed cells with
  | [] => PrimFloat.nan
  | _ :: _ =>
      (compensated_sum (observed cells) /
       Pd.count_float (length (observed cells)))%float
  end.


(** Invariant of the grouping loop: after the rows [df], the groups are
    sorted by model and each holds the aggregate of that model's rows. *)
Definition key_lt (a b : string * Pd.Acc) : Prop := String_as_OT.lt (fst a) (fst b).

(** The body of the grouping loop: a row is added to the group of its label;
    a row without a label is passed over. *)
Definition group_row (col : Pd.Row -> float) (groups : list (string * Pd.Acc))
  (r : Pd.Row) : list (string * Pd.Acc) :=
  match Pd.model r with
  | Some k => Pd.group_add k (col r) groups
  | None => groups
  end.

Definition acc_of (col : Pd.Row -> float) (rows : list Pd.Row) : Pd.Acc :=
  fold_left (fun a r => Pd.acc_add (col r) a) rows Pd.acc0.

Definition groups_of (col : Pd.Row -> float) (df : list Pd.Row)
  (gs : list (string * Pd.Acc)) : Prop :=
  StronglySorted key_lt gs /\
  forall m, Pd.series_get m gs =
            match records_of m df with
            | [] => None
            | _ :: _ => Some (acc_of col (records_of m df))
            end.

(** The objectives of the data model and the labels the selectbox shows
    for them. *)
Inductive Objective : Type := General | Coding | FastResponse | CostSaving.

Definition objective_label (o : Objective) : string :=
  match o with
  | General => "General"
  | Coding => "Coding"
  | FastResponse => "Fast Response"
  | CostSaving => "Cost Saving"
  end.

(** The helper calls of a run, in order. *)
Definition calls (evs : list Event) : list Call :=
  omap (fun e => match e with Invoke c => Some c | Draw _ _ => None end) evs.

(** Calls that select models or reach the backends. *)
Definition dispatching (c : Call) : bool :=
  match c with
  | CallChooseModels _ | CallRunParallel _ _ => true
  | _ => false
  end.

(** The steps of the control flow of a run: the four engine calls, and the
    presentation of results, which is everything drawn inside a result tab. *)
Inductive Step : Type := RateCheck | Selection | Dispatch | Report | Present.

Definition step_of (e : Event) : option Step :=
  match e with
  | Invoke (CallCheckLimit _) => Some RateCheck
  | Invoke (CallChooseModels _) => Some Selection
  | Invoke (CallRunParallel _ _) => Some Dispatch
  | Invoke (CallGenerateReport _ _) => Some Report
  | Draw (Tab _ :: _) _ => Some Present
  | _ => None
  end.

Definition steps (evs : list Event) : list Step := omap step_of evs.

(** The values shown under the label [Estimated Cost]. *)
Definition cost_of (e : Event) : option string :=
  match e with
  | Draw _ (Metric label value _) =>
      if String.eqb label "Estimated Cost" then Some value else None
  | _ => None
  end.

Definition reported_cost (evs : list Event) : list string := omap cost_of evs.

(** Model selection is asked for one of the objectives of the selectbox. *)
Definition objective_known (e : Event) : Prop :=
  match e with
  | Invoke (CallChooseModels task) => In task objectives
  | _ => True
  end.

(** An estimated cost, where one is shown, is the amount [$0.0042]. *)
Definition cost_fixed (e : Event) : Prop :=
  match cost_of e with
  | Some value => value = "$0.0042"
  | None => True
  end.

(** The postcondition that holds of every value. *)
Definition anything {A} (_ : A) : Prop := True.

(** A string that is empty or holds white space only. *)
Definition blank (s : string) : Prop :=
  Forall (fun c => Py.isspace c = true) (list_ascii_of_string s).

(** What [main] draws between [login] and the test of the button. *)
Definition page_events : list Event :=
  [ Draw [] (Markdown (div_open "app-title" +:+ "⚡ LLM Nexus</div>") true);
    Draw [] (Markdown (div_open "app-subtitle" +:+
                       "Enterprise-grade model routing & cost intelligence.</div>")
                 true);
    Draw [] (Columns [1; 3]);
    Draw [Column 0] (Markdown (div_open "card") true);
    Draw [Column 0] (Selectbox "Target Objective" objectives);
    Draw [Column 0] (Metric "Active Models" "3" "Operational");
    Draw [Column 0] (Markdown "</div>" true);
    Draw [Column 1] (Markdown (div_open "card") true);
    Draw [Column 1] (TextArea "Input Prompt");
    Draw [Column 1] (Markdown "</div>" true);
    Draw [] (Write "");
    Draw [] (Button "🚀 Run Analysis") ].

(** The cards of the Visual tab: entry number [i] of the mapping goes to
    column [i]. *)
Definition card_events (tab1 : Container) (numbered : list (nat * (string * string)))
  : list Event :=
  map (fun e => Draw (tab1 ++ [Column (fst e)])
                  (Markdown (model_card (fst (snd e)) (snd (snd e))) true))
      numbered.

Definition visual_events (tab1 : Container) (responses : list (string * string))
  : list Event :=
  Draw tab1 (Columns (repeat 1 (length responses)))
  :: card_events tab1 (Py.enumerate responses).

Section Vocabulary.
Context {S : Type} {env : Environment S}.

(** What an accepted run does from the rate-limit check to the end of the
    Cost tab. *)
Definition analysis_events (u task prompt : string) (models : list string)
  (responses : list (string * string)) (elapsed : Q) : list Event :=
  [ Invoke (CallCheckLimit u);
    Draw [] (Status "Running model orchestration...");
    Invoke (CallChooseModels task);
    Invoke CallTime;
    Invoke (CallRunParallel prompt models);
    Invoke CallTime;
    Draw [] (Markdown "## 📊 Results" false);
    Draw [] (Tabs ["Visual"; "Raw JSON"; "Cost"; "Performance"]) ]
  ++ visual_events [Tab 0] responses
  ++ [ Draw [Tab 1] (Json responses);
       Invoke (CallGenerateReport prompt responses);
       Draw [Tab 2] (Success "Cost report generated.");
       Draw [Tab 2] (Columns [1; 1]);
       Draw [Tab 2; Column 0] (Metric "Estimated Cost" "$0.0042" "-12%");
       Draw [Tab 2; Column 1] (Metric "Avg Latency" (float_str elapsed +:+ "s") "Fast") ].

(** An accepted run: somebody is signed in, the button was pressed, the
    rate limiter allows the request, the prompt is not blank, and the
    helpers return normally with at least one response.  The indices are
    the identity, the objective, the selected models, the responses, the
    elapsed time, and the state in which the Performance tab starts. *)
Inductive Accepted (i : Inputs) (ss : gmap string string) (w : S)
  : string -> string -> list string -> list (string * string) -> Q -> State S -> Prop :=
| accepted_run ss1 w1 u task w2 models w3 responses w4 w5 :
    login ss w = (Ret tt, ss1, w1) ->
    ss1 !! "user" = Some u ->
    nth_error objectives (objective_index i) = Some task ->
    run_clicked i = true ->
    check_limit u w1 = (Ret true, w2) ->
    Py.truthy (Py.strip (prompt_text i)) = true ->
    choose_models task w2 = (Ret models, w3) ->
    run_parallel (prompt_text i) models (snd (time_time w3)) = (Ret responses, w4) ->
    responses <> [] ->
    generate_report (prompt_text i) responses (snd (time_time w4)) = (Ret tt, w5) ->
    Accepted i ss w u task models responses
      (Py.round2 (fst (time_time w4) - fst (time_time w3)))
      {| widgets := i; session_state := ss1; world := w5 |}.

(** Two browser inputs that differ at most in the two model settings of
    the sidebar. *)
Definition same_request (a b : Inputs) : Prop :=
  objective_index a = objective_index b /\
  prompt_text a = prompt_text b /\
  run_clicked a = run_clicked b.

Definition sim (st st' : State S) : Prop :=
  same_request (widgets st) (widgets st') /\
  session_state st = session_state st' /\
  world st = world st'.

Inductive res_rel {A} (R : A -> A -> Prop) : Res A -> Res A -> Prop :=
| rel_Ret a b : R a b -> res_rel R (Ret a) (Ret b)
| rel_Halt : res_rel R Halt Halt
| rel_Raise e : res_rel R (Raise e) (Raise e).

(** Two computations agree when, from states with the same request, they
    end the same way, emit the same events and leave states with the same
    request. *)
Definition agree {A} (R : A -> A -> Prop) (m m' : M S A) : Prop :=
  forall st st', sim st st' ->
    res_rel R (fst (fst (m st))) (fst (fst (m' st'))) /\
    sim (snd (fst (m st))) (snd (fst (m' st'))) /\
    snd (m st) = snd (m' st').

(** Every event a computation emits satisfies [P], and a value it returns
    satisfies [Q]. *)
Definition emits {A} (P : Event -> Prop) (Q : A -> Prop) (m : M S A) : Prop :=
  forall st,
    Forall P (snd (m st)) /\
    forall a, fst (fst (m st)) = Ret a -> Q a.

End Vocabulary.

(** ** Vocabulary of the further properties *)

(** What the script draws at module level before the sidebar (lines 17-111). *)
Definition setup_events : list Event :=
  [ Draw [] (PageConfig "LLM Nexus" "⚡" "wide" "expanded");
    Draw [] (Markdown style_sheet true) ].

(** What the sidebar draws (lines 114-127), given the session dictionary at
    the time the sidebar runs. *)
Definition sidebar_events (ss : gmap string string) : list Event :=
  [ Draw [Sidebar] (Markdown "## ⚙️ Control Panel" false) ]
  ++ match ss !! "user" with
     | Some u => [ Draw [Sidebar] (Success ("👤 " +:+ u)) ]
     | None => []
     end
  ++ [ Draw [Sidebar] Divider;
       Draw [Sidebar] (Markdown "### Model Settings" false);
       Draw [Sidebar] (Slider "Temperature");
       Draw [Sidebar] (NumberInput "Max Tokens");
       Draw [Sidebar] Divider;
       Draw [Sidebar] (Caption "LLM Nexus • Enterprise v2.1.0") ].

(** What an accepted run does up to the point where the responses come
    back: the rate-limit check, model selection and the dispatch between two
    readings of the clock. *)
Definition dispatch_events (u task prompt : string) (models : list string) : list Event :=
  [ Invoke (CallCheckLimit u);
    Draw [] (Status "Running model orchestration...");
    Invoke (CallChooseModels task);
    Invoke CallTime;
    Invoke (CallRunParallel prompt models) ].

(** The head of the results area: the title and the four tabs. *)
Definition results_head : list Event :=
  [ Invoke CallTime;
    Draw [] (Markdown "## 📊 Results" false);
    Draw [] (Tabs ["Visual"; "Raw JSON"; "Cost"; "Performance"]) ].

(** How a helper that does not return ends the script: [st.stop()] or the
    exception it raised; [None] when it returns. *)
Definition failure_of {A} (r : Res A) : option (Res unit) :=
  match r with
  | Ret _ => None
  | Halt => Some Halt
  | Raise e => Some (Raise e)
  end.

(** The number of rate-limit checks among the events of a run. *)
Definition is_rate_check (e : Event) : bool :=
  match e with
  | Invoke (CallCheckLimit _) => true
  | _ => false
  end.

Definition rate_checks (evs : list Event) : nat :=
  length (List.filter is_rate_check evs).

Definition no_rate_check (e : Event) : Prop := is_rate_check e = false.

(** The values shown under the label [Active Models]. *)
Definition active_models_of (e : Event) : option (string * string) :=
  match e with
  | Draw _ (Metric label value delta) =>
      if String.eqb label "Active Models" then Some (value, delta) else None
  | _ => None
  end.

Definition active_models_fixed (e : Event) : Prop :=
  match active_models_of e with
  | Some shown => shown = ("3", "Operational")
  | None => True
  end.

(** A dispatch carries a prompt that [strip] does not empty. *)
Definition dispatch_has_text (e : Event) : Prop :=
  match e with
  | Invoke (CallRunParallel prompt _) => Py.truthy (Py.strip prompt) = true
  | _ => True
  end.

(** A report is generated over a mapping that is not empty. *)
Definition report_has_responses (e : Event) : Prop :=
  match e with
  | Invoke (CallGenerateReport _ responses) => responses <> []
  | _ => True
  end.

Section Progress.
Context {S : Type} {env : Environment S}.

(** A run that has passed the rate-limit check: somebody is signed in, an
    objective is selected, the button was pressed and the rate limiter
    allows the request.  The indices are the identity, the objective and
    the state after the check. *)
Inductive Checked (i : Inputs) (ss : gmap string string) (w : S)
  : string -> string -> State S -> Prop :=
| checked_run ss1 w1 u task w2 :
    login ss w = (Ret tt, ss1, w1) ->
    ss1 !! "user" = Some u ->
    nth_error objectives (objective_index i) = Some task ->
    run_clicked i = true ->
    check_limit u w1 = (Ret true, w2) ->
    Checked i ss w u task {| widgets := i; session_state := ss1; world := w2 |}.

(** A run that has reached the dispatch: it has passed the rate-limit
    check, its prompt is not blank and model selection returned.  The
    indices are the identity, the objective, the selected models, the way
    the dispatch ended and the state after it. *)
Inductive Dispatched (i : Inputs) (ss : gmap string string) (w : S)
  : string -> string -> list string -> Res (list (string * string)) -> State S -> Prop :=
| dispatched_run u task st models w3 r w4 :
    Checked i ss w u task st ->
    Py.truthy (Py.strip (prompt_text i)) = true ->
    choose_models task (world st) = (Ret models, w3) ->
    run_parallel (prompt_text i) models (snd (time_time w3)) = (r, w4) ->
    Dispatched i ss w u task models r (with_world st w4).

End Progress.

(** ** Environments in which one helper fails

    Each is the reference environment with one helper replaced. *)

Module Faulty.

(** The imports of lines 7-12 raise. *)
Definition env_import : Environment Demo.World :=
Build_Environment Demo.World (Some "No module named 'auth'")
  Demo.login Demo.check_limit Demo.choose_models Demo.run_parallel
  Demo.generate_report Demo.time_time Demo.path_exists Demo.read_csv
  Demo.to_datetime Demo.resample_count Demo.float_str.

(** The login screen shows its form and stops the script. *)
Definition login_form (ss : gmap string string) (w : Demo.World)
: Res unit * gmap string string * Demo.World :=
(Halt, ss, w).

Definition env_login : Environment Demo.World :=
Build_Environment Demo.World None
  login_form Demo.check_limit Demo.choose_models Demo.run_parallel
  Demo.generate_report Demo.time_time Demo.path_exists Demo.read_csv
  Demo.to_datetime Demo.resample_count Demo.float_str.

(** No model is available for the objective. *)
Definition routing_exhausted (task : string) (w : Demo.World)
: Res (list string) * Demo.World :=
(Raise "RoutingExhausted", w).

Definition env_routing : Environment Demo.World :=
Build_Environment Demo.World None
  Demo.login Demo.check_limit routing_exhausted Demo.run_parallel
  Demo.generate_report Demo.time_time Demo.path_exists Demo.read_csv
  Demo.to_datetime Demo.resample_count Demo.float_str.

(** The dispatcher raises. *)
Definition timed_out (prompt : string) (models : list string) (w : Demo.World)
: Res (list (string * string)) * Demo.World :=
(Raise "TimeoutError", w).

Definition env_dispatch : Environment Demo.World :=
Build_Environment Demo.World None
  Demo.login Demo.check_limit Demo.choose_models timed_out
  Demo.generate_report Demo.time_time Demo.path_exists Demo.read_csv
  Demo.to_datetime Demo.resample_count Demo.float_str.

(** The dispatcher returns an empty mapping. *)
Definition no_answers (prompt : string) (models : list string) (w : Demo.World)
: Res (list (string * string)) * Demo.World :=
(Ret [], w).

Definition env_silent : Environment Demo.World :=
Build_Environment Demo.World None
  Demo.login Demo.check_limit Demo.choose_models no_answers
  Demo.generate_report Demo.time_time Demo.path_exists Demo.read_csv
  Demo.to_datetime Demo.resample_count Demo.float_str.

(** The report cannot be written. *)
Definition disk_full (prompt : string) (responses : list (string * string))
(w : Demo.World) : Res unit * Demo.World :=
(Raise "OSError", w).

Definition env_report : Environment Demo.World :=
Build_Environment Demo.World None
  Demo.login Demo.check_limit Demo.choose_models Demo.run_parallel
  disk_full Demo.time_time Demo.path_exists Demo.read_csv
  Demo.to_datetime Demo.resample_count Demo.float_str.

(** The metrics file exists and cannot be parsed. *)
Definition unreadable (path : string) (w : Demo.World) : Res (list Pd.Row) :=
Raise "ParserError".

Definition env_csv : Environment Demo.World :=
Build_Environment Demo.World None
  Demo.login Demo.check_limit Demo.choose_models Demo.run_parallel
  Demo.generate_report Demo.time_time (fun _ _ => true) unreadable
  Demo.to_datetime Demo.resample_count Demo.float_str.

(** A request without a press of the button. *)
Definition idle_request : Inputs := {|
temperature := 7 # 10;
max_tokens_value := 1024;
objective_index := 1;
prompt_text := "write a sort function";
run_clicked := false
|}.

(** A request whose prompt has white space around the text. *)
Definition padded_request : Inputs := {|
temperature := 7 # 10;
max_tokens_value := 1024;
objective_index := 2;
prompt_text := "  hello  ";
run_clicked := true
|}.

(** The metrics file holds one row whose timestamp, 1e13 seconds, is
  outside the range of datetimes; the recorder is switched off. *)
Definition far_future_rows : list Pd.Row :=
[ {| Pd.timestamp := 10000000000000%float; Pd.model := Some "A";
     Pd.latency := 0.5%float; Pd.response_length := 10%float |} ].

Definition world_far_future : Demo.World := {|
Demo.now := 1000;
Demo.account := Some "u1";
Demo.windows := ∅;
Demo.recording := false;
Demo.files := {[ metrics_file := far_future_rows ]}
|}.

End Faulty.

(** * Properties *)

(** ** pandas: group means *)

Section GroupMean.
Variable col : Pd.Row -> float.

Lemma compare_Lt_lt k k' : String.compare k k' = Lt -> String_as_OT.lt k k'.
Proof. intros H. apply String_as_OT.cmp_lt. exact H. Qed.

Lemma compare_Gt_lt k k' : String.compare k k' = Gt -> String_as_OT.lt k' k.
Proof.
  intros H. apply String_as_OT.cmp_lt. unfold String_as_OT.cmp.
  rewrite String.compare_antisym, H. reflexivity.
Qed.

Lemma lt_neq k k' : String_as_OT.lt k k' -> k <> k'.
Proof. intros H. apply String_as_OT.lt_not_eq in H. exact H. Qed.

Lemma series_get_above {V} k (gs : list (string * V)) :
  Forall (fun g => String_as_OT.lt k (fst g)) gs -> Pd.series_get k gs = None.
Proof.
  induction 1 as [|[k' a] gs Hk _ IH]; simpl; [reflexivity|].
  destruct (String.eqb_spec k k') as [->|_]; [|exact IH].
  exfalso. exact (lt_neq _ _ Hk eq_refl).
Qed.

Lemma group_add_keys k v gs g :
  In g (Pd.group_add k v gs) -> fst g = k \/ In (fst g) (map fst gs).
Proof.
  induction gs as [|[k' a] gs IH]; simpl.
  - intros [<-|[]]. left. reflexivity.
  - destruct (String.compare k k') eqn:E; simpl.
    + intros [<-|H]; simpl; [right; left; reflexivity|].
      right. right. apply in_map. exact H.
    + intros [<-|[<-|H]]; simpl; [left; reflexivity|right; left; reflexivity|].
      right. right. apply in_map. exact H.
    + intros [<-|H]; simpl; [right; left; reflexivity|].
      destruct (IH H) as [->|H']; [left; reflexivity|right; right; exact H'].
Qed.

Lemma group_add_sorted k v gs :
  StronglySorted key_lt gs -> StronglySorted key_lt (Pd.group_add k v gs).
Proof.
  induction 1 as [|[k' a] gs Hs IH Hall]; simpl.
  - repeat constructor.
  - destruct (String.compare k k') eqn:E.
    + constructor; [exact Hs|exact Hall].
    + apply compare_Lt_lt in E.
      constructor; [constructor; assumption|].
      constructor; [exact E|].
      rewrite Forall_forall in Hall |- *. intros g Hg.
      unfold key_lt in *. simpl in *.
      eapply String_as_OT.lt_trans; [exact E|]. apply Hall. exact Hg.
    + apply compare_Gt_lt in E.
      constructor; [exact IH|].
      rewrite Forall_forall in Hall |- *. intros g Hg.
      apply list_elem_of_In, group_add_keys in Hg.
      destruct Hg as [Hg|Hg]; unfold key_lt; simpl; [rewrite Hg; exact E|].
      apply in_map_iff in Hg. destruct Hg as [g' [Hfst Hg']].
      rewrite <- Hfst. apply (Hall g'). apply list_elem_of_In. exact Hg'.
Qed.

Lemma group_add_get k v gs m :
  StronglySorted key_lt gs ->
  Pd.series_get m (Pd.group_add k v gs) =
    if String.eqb m k
    then Some (Pd.acc_add v (default Pd.acc0 (Pd.series_get k gs)))
    else Pd.series_get m gs.
Proof.
  induction 1 as [|[k' a] gs Hs IH Hall]; simpl.
  - destruct (String.eqb m k); reflexivity.
  - destruct (String.compare k k') eqn:E; simpl.
    + apply String.compare_eq_iff in E. subst k'.
      rewrite String.eqb_refl. destruct (String.eqb m k); reflexivity.
    + apply compare_Lt_lt in E.
      destruct (String.eqb_spec k k') as [->|_];
        [exfalso; exact (lt_neq _ _ E eq_refl)|].
      destruct (String.eqb m k) eqn:Em; [|reflexivity].
      rewrite series_get_above; [reflexivity|].
      rewrite Forall_forall in Hall |- *. intros g Hg.
      eapply String_as_OT.lt_trans; [exact E|]. exact (Hall g Hg).
    + apply compare_Gt_lt in E.
      destruct (String.eqb_spec k k') as [->|_];
        [exfalso; exact (lt_neq _ _ E eq_refl)|].
      rewrite IH.
      destruct (String.eqb_spec m k) as [->|Hmk].
      * destruct (String.eqb_spec k k') as [->|_];
          [exfalso; exact (lt_neq _ _ E eq_refl)|reflexivity].
      * reflexivity.
Qed.

Lemma acc_of_snoc rows r :
  acc_of col (rows ++ [r]) = Pd.acc_add (col r) (acc_of col rows).
Proof. unfold acc_of. rewrite fold_left_app. reflexivity. Qed.

Lemma groups_of_step df gs r :
  groups_of col df gs -> groups_of col (df ++ [r]) (group_row col gs r).
Proof.
  intros [Hs Hget]. unfold group_row.
  destruct (Pd.model r) as [k|] eqn:Ek.
  - split; [apply group_add_sorted; exact Hs|].
    intros m. rewrite group_add_get by exact Hs.
    unfold records_of in *. rewrite filter_app.
    destruct (String.eqb_spec m k) as [->|Hne].
    + rewrite Hget. rewrite filter_cons_True, filter_nil by exact Ek.
      destruct (filter _ df) as [|r0 rows] eqn:Ef; simpl.
      * f_equal.
      * f_equal. change (r0 :: rows ++ [r]) with ((r0 :: rows) ++ [r]).
        rewrite acc_of_snoc. reflexivity.
    + rewrite filter_cons_False, filter_nil, app_nil_r by congruence.
      apply Hget.
  - split; [exact Hs|].
    intros m. unfold records_of in *. rewrite filter_app.
    rewrite filter_cons_False, filter_nil, app_nil_r by congruence.
    apply Hget.
Qed.

Lemma groups_of_fold df : forall df0 gs,
  groups_of col df0 gs ->
  groups_of col (df0 ++ df) (fold_left (group_row col) df gs).
Proof.
  induction df as [|r df IH]; intros df0 gs H; simpl.
  - rewrite app_nil_r. exact H.
  - replace (df0 ++ r :: df) with ((df0 ++ [r]) ++ df)
      by (rewrite <- app_assoc; reflexivity).
    apply IH, groups_of_step, H.
Qed.

Lemma series_get_map {V W} (f : V -> W) m (s : list (string * V)) :
  Pd.series_get m (map (fun g => (fst g, f (snd g))) s) = f <$> Pd.series_get m s.
Proof.
  induction s as [|[k v] s IH]; simpl; [reflexivity|].
  destruct (String.eqb m k); [reflexivity|exact IH].
Qed.

(** The aggregate of a group is the compensated sum and the count of its
    observed cells. *)
Lemma acc_add_fold xs : forall a,
  let a' := fold_left (fun a x => Pd.acc_add x a) xs a in
  (Pd.sumx a', Pd.compensation a') =
    fold_left compensated_step (observed xs) (Pd.sumx a, Pd.compensation a) /\
  Pd.nobs a' = Pd.nobs a + length (observed xs).
Proof.
  induction xs as [|x xs IH]; intros a; cbv zeta.
  - simpl. split; [reflexivity|]. rewrite Nat.add_0_r. reflexivity.
  - destruct (IH (Pd.acc_add x a)) as [H1 H2].
    change (fold_left (fun a x => Pd.acc_add x a) (x :: xs) a)
      with (fold_left (fun a x => Pd.acc_add x a) xs (Pd.acc_add x a)).
    rewrite H1, H2. unfold observed, Pd.acc_add. simpl.
    destruct (PrimFloat.is_nan x); simpl; [|split; [reflexivity|lia]].
    split; reflexivity.
Qed.

Lemma acc_of_cells rows : forall a,
  fold_left (fun a r => Pd.acc_add (col r) a) rows a =
  fold_left (fun a x => Pd.acc_add x a) (map col rows) a.
Proof. induction rows as [|r rows IH]; intros a; simpl; [reflexivity|apply IH]. Qed.

Lemma acc_mean_acc_of rows :
  Pd.acc_mean (acc_of col rows) = binary64_mean (map col rows).
Proof.
  unfold acc_of. rewrite acc_of_cells.
  destruct (acc_add_fold (map col rows) Pd.acc0) as [Hsum Hn].
  cbv zeta in Hsum, Hn. simpl in Hsum, Hn.
  unfold Pd.acc_mean, binary64_mean, compensated_sum.
  rewrite Hn, <- Hsum.
  destruct (observed (map col rows)); reflexivity.
Qed.

Lemma groupby_model_mean_get df m :
  Pd.series_get m (Pd.groupby_model_mean col df) =
    match records_of m df with
    | [] => None
    | _ :: _ => Some (binary64_mean (map col (records_of m df)))
    end.
Proof.
  unfold Pd.groupby_model_mean. rewrite series_get_map.
  destruct (groups_of_fold df [] []) as [_ Hget].
  - split; [constructor|]. intros m'. reflexivity.
  - simpl in Hget. unfold group_row in Hget. rewrite Hget.
    destruct (records_of m df) as [|r rows]; simpl; [reflexivity|].
    f_equal. apply acc_mean_acc_of.
Qed.

End GroupMean.

(** ** Python: blank strings *)

Lemma lstrip_nil l :
  Py.lstrip_chars l = [] <-> Forall (fun c => Py.isspace c = true) l.
Proof.
  induction l as [|c l IH]; simpl.
  - split; [constructor|reflexivity].
  - destruct (Py.isspace c) eqn:Ec.
    + rewrite IH. split; [intros H; constructor; assumption|].
      intros H. inversion H; assumption.
    + split; [discriminate|]. intros H. inversion H; congruence.
Qed.

Lemma lstrip_head l c r : Py.lstrip_chars l = c :: r -> Py.isspace c = false.
Proof.
  induction l as [|a l IH]; simpl; [discriminate|].
  destruct (Py.isspace a) eqn:Ea; [exact IH|].
  intros H. injection H as <- _. exact Ea.
Qed.

Lemma rstrip_nil l :
  Py.rstrip_chars l = [] <-> Forall (fun c => Py.isspace c = true) l.
Proof.
  unfold Py.rstrip_chars. split.
  - intros H. apply (f_equal (@rev ascii)) in H. rewrite rev_involutive in H.
    simpl in H. apply lstrip_nil in H. apply Forall_rev in H.
    rewrite rev_involutive in H. exact H.
  - intros H. apply Forall_rev in H. apply lstrip_nil in H. rewrite H. reflexivity.
Qed.

Lemma truthy_of_list l : Py.truthy (string_of_list_ascii l) = false <-> l = [].
Proof. destruct l; simpl; split; congruence. Qed.

Lemma strip_blank s : Py.truthy (Py.strip s) = false <-> blank s.
Proof.
  unfold Py.strip, blank. rewrite truthy_of_list, rstrip_nil.
  split.
  - intros H. apply lstrip_nil.
    destruct (Py.lstrip_chars (list_ascii_of_string s)) as [|c r] eqn:E; [reflexivity|].
    apply lstrip_head in E. inversion H; congruence.
  - intros H. apply lstrip_nil in H. rewrite H. constructor.
Qed.

(** ** The script monad *)

Section Steps.
Context {S : Type} {env : Environment S}.

Lemma bind_Ret {A B} (m : M S A) (k : A -> M S B) st a st1 o1 :
  m st = (Ret a, st1, o1) ->
  bind m k st = (fst (fst (k a st1)), snd (fst (k a st1)), o1 ++ snd (k a st1)).
Proof. intros H. unfold bind. rewrite H. destruct (k a st1) as [[r st2] o2]. reflexivity. Qed.

Lemma bind_Halt {A B} (m : M S A) (k : A -> M S B) st st1 o1 :
  m st = (Halt, st1, o1) -> bind m k st = (Halt, st1, o1).
Proof. intros H. unfold bind. rewrite H. reflexivity. Qed.

Lemma bind_Raise {A B} (m : M S A) (k : A -> M S B) st e st1 o1 :
  m st = (Raise e, st1, o1) -> bind m k st = (Raise e, st1, o1).
Proof. intros H. unfold bind. rewrite H. reflexivity. Qed.

Lemma bind_events_head {A B} (m : M S A) (k : A -> M S B) st e o :
  snd (m st) = e :: o -> exists rest, snd (bind m k st) = e :: o ++ rest.
Proof.
  unfold bind. destruct (m st) as [[[a| |x] st1] o1]; simpl; intros ->.
  - destruct (k a st1) as [[r st2] o2]. simpl. eauto.
  - exists []. rewrite app_nil_r. reflexivity.
  - exists []. rewrite app_nil_r. reflexivity.
Qed.

(** *** The Visual tab *)

Lemma cards_run tab1 n : forall (rs : list (string * string)) k (st : State S),
  k + length rs <= n ->
  for_each (Py.enumerate_from k rs)
    (card_into (S:=S) (map (fun i => tab1 ++ [Column i]) (seq 0 n))) st
  = (Ret tt, st, card_events tab1 (Py.enumerate_from k rs)).
Proof.
  induction rs as [|[m t] rs IH]; intros k st Hk; simpl in *; [reflexivity|].
  unfold bind at 1. unfold card_into at 1. unfold bind at 1. unfold index.
  rewrite nth_error_map, nth_error_seq.
  destruct (Nat.ltb_spec k n) as [_|Hge]; [|lia]. simpl.
  rewrite IH by lia. reflexivity.
Qed.

Lemma existsb_repeat_1 n : existsb (fun w => w =? 0) (repeat 1 n) = false.
Proof. induction n; simpl; [reflexivity|assumption]. Qed.

Lemma tab_visual_empty tab1 (st : State S) :
  tab_visual tab1 [] st = (Raise "StreamlitAPIException", st, []).
Proof. reflexivity. Qed.

Lemma tab_visual_run tab1 responses (st : State S) :
  responses <> [] ->
  tab_visual tab1 responses st = (Ret tt, st, visual_events tab1 responses).
Proof.
  intros Hne. unfold tab_visual, columns, columns_spec.
  rewrite repeat_length, existsb_repeat_1.
  destruct responses as [|r rs]; [congruence|].
  change (length (r :: rs) =? 0) with false. cbv beta iota. simpl orb. cbv iota.
  unfold bind at 1. unfold bind at 1. unfold draw at 1. unfold ret at 1.
  cbv beta iota.
  unfold Py.enumerate.
  rewrite (cards_run tab1 (length (r :: rs)) (r :: rs) 0 st) by (simpl; lia).
  reflexivity.
Qed.
End Steps.

(** ** The blocks of the script, path by path *)

Section Paths.
Context {S : Type} {env : Environment S}.

Lemma tab_cost_run tab3 prompt responses elapsed (st : State S) w' :
  generate_report prompt responses (world st) = (Ret tt, w') ->
  tab_cost tab3 prompt responses elapsed st =
    (Ret tt, with_world st w',
     [ Invoke (CallGenerateReport prompt responses);
       Draw tab3 (Success "Cost report generated.");
       Draw tab3 (Columns [1; 1]);
       Draw (tab3 ++ [Column 0]) (Metric "Estimated Cost" "$0.0042" "-12%");
       Draw (tab3 ++ [Column 1])
         (Metric "Avg Latency" (float_str elapsed +:+ "s") "Fast") ]).
Proof.
  intros H. unfold tab_cost, call_generate_report, on_world, bind, invoke.
  rewrite H. reflexivity.
Qed.

Lemma tab_performance_absent tab4 (st : State S) :
  path_exists metrics_file (world st) = false ->
  tab_performance tab4 st =
    (Ret tt, st,
     [ Invoke (CallPathExists metrics_file);
       Draw tab4 (Warning "No metrics available.") ]).
Proof.
  intros H. unfold tab_performance, call_path_exists, read_world, bind, invoke.
  rewrite H. reflexivity.
Qed.

Lemma tab_performance_present tab4 (st : State S) df instants counts :
  path_exists metrics_file (world st) = true ->
  read_csv metrics_file (world st) = Ret df ->
  to_datetime (map Pd.timestamp df) = Ret instants ->
  resample_count (combine instants (map Pd.model df)) = Ret counts ->
  tab_performance tab4 st =
    (Ret tt, st,
     [ Invoke (CallPathExists metrics_file);
       Invoke (CallReadCsv metrics_file);
       Draw tab4 (BarChart (Pd.groupby_model_mean Pd.latency df));
       Draw tab4 (BarChart (Pd.groupby_model_mean Pd.response_length df));
       Draw tab4 (LineChart counts) ]).
Proof.
  intros H Hcsv Hdt Hrs.
  unfold tab_performance, call_path_exists, call_read_csv, read_world, bind, invoke, draw.
  rewrite H. simpl. rewrite Hcsv. simpl. rewrite Hdt. simpl. rewrite Hrs. reflexivity.
Qed.

(** Up to the two bar charts the tab needs the file and its instants
    only. *)
Lemma tab_performance_means tab4 (st : State S) df instants :
  path_exists metrics_file (world st) = true ->
  read_csv metrics_file (world st) = Ret df ->
  to_datetime (map Pd.timestamp df) = Ret instants ->
  exists rest,
    snd (tab_performance tab4 st) =
      [ Invoke (CallPathExists metrics_file);
        Invoke (CallReadCsv metrics_file);
        Draw tab4 (BarChart (Pd.groupby_model_mean Pd.latency df));
        Draw tab4 (BarChart (Pd.groupby_model_mean Pd.response_length df)) ]
      ++ rest.
Proof.
  intros H Hcsv Hdt.
  unfold tab_performance, call_path_exists, call_read_csv, read_world, bind, invoke, draw.
  rewrite H. simpl. rewrite Hcsv. simpl. rewrite Hdt. simpl.
  destruct (resample_count _) as [counts| |e]; simpl; eexists; reflexivity.
Qed.

Lemma tab_performance_out_of_bounds tab4 (st : State S) df e :
  path_exists metrics_file (world st) = true ->
  read_csv metrics_file (world st) = Ret df ->
  to_datetime (map Pd.timestamp df) = Raise e ->
  tab_performance tab4 st =
    (Raise e, st,
     [ Invoke (CallPathExists metrics_file);
       Invoke (CallReadCsv metrics_file) ]).
Proof.
  intros H Hcsv Hdt.
  unfold tab_performance, call_path_exists, call_read_csv, read_world, bind, invoke, draw.
  rewrite H. simpl. rewrite Hcsv. simpl. rewrite Hdt. reflexivity.
Qed.


Lemma run_analysis_limited task prompt (st : State S) u w2 :
  session_state st !! "user" = Some u ->
  check_limit u (world st) = (Ret false, w2) ->
  run_analysis task prompt st =
    (Halt, with_world st w2,
     [ Invoke (CallCheckLimit u); Draw [] (Error "Rate limit reached.") ]).
Proof.
  intros Hu Hc.
  unfold run_analysis, session_user, call_check_limit, on_world, get_session, bind, invoke.
  rewrite Hu. simpl. rewrite Hc. reflexivity.
Qed.

Lemma run_analysis_blank task prompt (st : State S) u w2 :
  session_state st !! "user" = Some u ->
  check_limit u (world st) = (Ret true, w2) ->
  Py.truthy (Py.strip prompt) = false ->
  run_analysis task prompt st =
    (Halt, with_world st w2,
     [ Invoke (CallCheckLimit u); Draw [] (Warning "Please enter a prompt.") ]).
Proof.
  intros Hu Hc Hp.
  unfold run_analysis, session_user, call_check_limit, on_world, get_session, bind, invoke.
  rewrite Hu. simpl. rewrite Hc. simpl. rewrite Hp. reflexivity.
Qed.

Lemma call_check_limit_events u (st : State S) :
  snd (call_check_limit u st) = [Invoke (CallCheckLimit u)].
Proof.
  unfold call_check_limit, on_world, bind, invoke.
  destruct (check_limit u (world st)) as [[a| |e] w']; reflexivity.
Qed.

Lemma run_analysis_head task prompt (st : State S) u :
  session_state st !! "user" = Some u ->
  exists rest, snd (run_analysis task prompt st) = Invoke (CallCheckLimit u) :: rest.
Proof.
  intros Hu. unfold run_analysis.
  match goal with
  | |- exists rest, snd (bind session_user ?k st) = _ =>
      rewrite (bind_Ret session_user k st u st [])
        by (unfold session_user, get_session, bind; rewrite Hu; reflexivity)
  end.
  cbn [fst snd app].
  match goal with
  | |- exists rest, snd (bind _ ?k st) = _ =>
      destruct (bind_events_head (call_check_limit u) k st _ _
                  (call_check_limit_events u st)) as [rest Hrest]
  end.
  exists rest. exact Hrest.
Qed.

Lemma run_analysis_accepted task prompt (st : State S) u w2 models w3 responses w4 w5 :
  session_state st !! "user" = Some u ->
  check_limit u (world st) = (Ret true, w2) ->
  Py.truthy (Py.strip prompt) = true ->
  choose_models task w2 = (Ret models, w3) ->
  run_parallel prompt models (snd (time_time w3)) = (Ret responses, w4) ->
  responses <> [] ->
  generate_report prompt responses (snd (time_time w4)) = (Ret tt, w5) ->
  run_analysis task prompt st =
    (fst (fst (tab_performance [Tab 3] (with_world st w5))),
     snd (fst (tab_performance [Tab 3] (with_world st w5))),
     analysis_events u task prompt models responses
       (Py.round2 (fst (time_time w4) - fst (time_time w3)))
     ++ snd (tab_performance [Tab 3] (with_world st w5))).
Proof.
  intros Hu Hc Hp Hm Hr Hne Hg.
  unfold run_analysis, session_user, call_check_limit, call_choose_models,
    call_time, call_run_parallel, tab_json, on_world, get_session, bind, invoke.
  rewrite Hu. simpl. rewrite Hc. simpl. rewrite Hp. simpl. rewrite Hm. simpl.
  rewrite Hr. simpl.
  rewrite tab_visual_run by exact Hne.
  erewrite tab_cost_run by exact Hg.
  unfold with_world. simpl.
  destruct (tab_performance _ _) as [[r st'] o].
  unfold analysis_events, visual_events. simpl.
  rewrite <- !app_assoc. reflexivity.
Qed.

Lemma main_front i ss w ss1 w1 u task :
  login ss w = (Ret tt, ss1, w1) ->
  ss1 !! "user" = Some u ->
  nth_error objectives (objective_index i) = Some task ->
  run_clicked i = true ->
  run main i ss w =
    (fst (fst (run_analysis task (prompt_text i)
                 {| widgets := i; session_state := ss1; world := w1 |})),
     snd (fst (run_analysis task (prompt_text i)
                 {| widgets := i; session_state := ss1; world := w1 |})),
     Invoke CallLogin :: page_events
     ++ snd (run_analysis task (prompt_text i)
               {| widgets := i; session_state := ss1; world := w1 |})).
Proof.
  intros Hl Hu Ht Hb.
  unfold run, main, call_login, columns_spec, selectbox, text_area, button, index,
    get_widgets, get_session, draw, invoke, bind.
  simpl. rewrite Hl. simpl. rewrite Hu. simpl. rewrite Ht. simpl. rewrite Hb.
  destruct (run_analysis _ _ _) as [[r st'] o]. reflexivity.
Qed.
End Paths.

(** ** Projections of the event list *)

Lemma calls_app a b : calls (a ++ b) = calls a ++ calls b.
Proof. apply omap_app. Qed.


Lemma enumerate_from_length {A} (rs : list A) : forall k,
  length (Py.enumerate_from k rs) = length rs.
Proof. induction rs as [|r rs IH]; intros k; simpl; [reflexivity|]. rewrite IH. reflexivity. Qed.

Lemma calls_cards tab1 numbered : calls (card_events tab1 numbered) = [].
Proof. induction numbered as [|e l IH]; simpl; [reflexivity|exact IH]. Qed.


Lemma cards_nth tab1 (rs : list (string * string)) : forall k j m t,
  nth_error rs j = Some (m, t) ->
  nth_error (card_events tab1 (Py.enumerate_from k rs)) j =
    Some (Draw (tab1 ++ [Column (k + j)]) (Markdown (model_card m t) true)).
Proof.
  induction rs as [|r rs IH]; intros k j m t H.
  - destruct j; discriminate.
  - destruct j as [|j]; simpl in *.
    + injection H as ->. rewrite Nat.add_0_r. reflexivity.
    + replace (k + Datatypes.S j) with (Datatypes.S k + j) by lia.
      exact (IH (Datatypes.S k) j m t H).
Qed.


Section Runs.
Context {S : Type} {env : Environment S}.

Lemma main_no_login i ss w r0 ss1 (w1 : S) :
  login ss w = (r0, ss1, w1) ->
  r0 <> Ret tt ->
  outcome (run main i ss w) = r0 /\ events (run main i ss w) = [Invoke CallLogin].
Proof.
  intros Hl Hr. unfold run, main, call_login, invoke, bind, outcome, events.
  simpl. rewrite Hl. destruct r0 as [[]| |e]; [congruence| |]; split; reflexivity.
Qed.

Lemma main_no_user i ss w ss1 (w1 : S) :
  login ss w = (Ret tt, ss1, w1) ->
  ss1 !! "user" = None ->
  outcome (run main i ss w) = Halt /\ events (run main i ss w) = [Invoke CallLogin].
Proof.
  intros Hl Hu. unfold run, main, call_login, get_session, invoke, bind, outcome, events.
  simpl. rewrite Hl. simpl. rewrite Hu. split; reflexivity.
Qed.

Lemma main_no_objective i ss w ss1 (w1 : S) u :
  login ss w = (Ret tt, ss1, w1) ->
  ss1 !! "user" = Some u ->
  nth_error objectives (objective_index i) = None ->
  calls (events (run main i ss w)) = [CallLogin].
Proof.
  intros Hl Hu Ht.
  unfold run, main, call_login, columns_spec, selectbox, index,
    get_widgets, get_session, draw, invoke, bind, events.
  simpl. rewrite Hl. simpl. rewrite Hu. simpl. rewrite Ht. reflexivity.
Qed.

Lemma main_not_clicked i ss w ss1 (w1 : S) u task :
  login ss w = (Ret tt, ss1, w1) ->
  ss1 !! "user" = Some u ->
  nth_error objectives (objective_index i) = Some task ->
  run_clicked i = false ->
  outcome (run main i ss w) = Ret tt /\
  events (run main i ss w) = Invoke CallLogin :: page_events.
Proof.
  intros Hl Hu Ht Hb.
  unfold run, main, call_login, columns_spec, selectbox, text_area, button, index,
    get_widgets, get_session, draw, invoke, bind, outcome, events.
  simpl. rewrite Hl. simpl. rewrite Hu. simpl. rewrite Ht. simpl. rewrite Hb.
  split; reflexivity.
Qed.

Lemma main_calls i ss w r0 ss1 (w1 : S) :
  login ss w = (r0, ss1, w1) ->
  calls (events (run main i ss w)) = [CallLogin] \/
  exists u rest,
    ss1 !! "user" = Some u /\
    calls (events (run main i ss w)) = CallLogin :: CallCheckLimit u :: rest.
Proof.
  intros Hl.
  destruct r0 as [[]| |e].
  2,3: left; destruct (main_no_login i ss w _ _ _ Hl) as [_ ->];
       [discriminate|reflexivity].
  destruct (ss1 !! "user") as [u|] eqn:Hu.
  2: { left. destruct (main_no_user i ss w _ _ Hl Hu) as [_ ->]. reflexivity. }
  destruct (nth_error objectives (objective_index i)) as [task|] eqn:Ht.
  2: { left. exact (main_no_objective i ss w _ _ u Hl Hu Ht). }
  destruct (run_clicked i) eqn:Hb.
  2: { left. destruct (main_not_clicked i ss w _ _ u task Hl Hu Ht Hb) as [_ ->].
       reflexivity. }
  right. exists u.
  rewrite (main_front i ss w ss1 w1 u task Hl Hu Ht Hb). unfold events. simpl.
  destruct (run_analysis_head task (prompt_text i)
              {| widgets := i; session_state := ss1; world := w1 |} u Hu)
    as [rest Hrest].
  rewrite Hrest. exists (calls rest). split; [reflexivity|].
  change (calls (page_events ++ Invoke (CallCheckLimit u) :: rest))
    with (calls (Invoke (CallCheckLimit u) :: rest)).
  reflexivity.
Qed.
End Runs.

(** ** Properties of every event of a run *)

Section Emits.
Context {S : Type} {env : Environment S}.
Variable P : Event -> Prop.

Lemma emits_weaken {A} (Q R : A -> Prop) (m : M S A) :
  (forall a, Q a -> R a) -> emits P Q m -> emits P R m.
Proof. intros HQR H st. destruct (H st) as [He Hr]. split; [exact He|]. intros a Ha. apply HQR, Hr, Ha. Qed.

Lemma emits_quiet {A} (m : M S A) :
  (forall st, snd (m st) = []) -> emits P anything m.
Proof. intros H st. rewrite H. split; [constructor|]. intros; exact I. Qed.

Lemma emits_ret {A} (a : A) : emits P anything (ret (S:=S) a).
Proof. apply emits_quiet. reflexivity. Qed.

Lemma emits_stop {A} : emits P anything (@stop S A).
Proof. apply emits_quiet. reflexivity. Qed.

Lemma emits_raise {A} e : emits P anything (@raise S A e).
Proof. apply emits_quiet. reflexivity. Qed.

Lemma emits_get_widgets : emits P anything (@get_widgets S).
Proof. apply emits_quiet. reflexivity. Qed.

Lemma emits_get_session : emits P anything (@get_session S).
Proof. apply emits_quiet. reflexivity. Qed.

Lemma emits_on_world {A} (f : S -> Res A * S) : emits P anything (on_world f).
Proof. apply emits_quiet. intros st. unfold on_world. destruct (f (world st)). reflexivity. Qed.

Lemma emits_read_world {A} (f : S -> Res A) : emits P anything (read_world f).
Proof. apply emits_quiet. reflexivity. Qed.

Lemma emits_draw c el : P (Draw c el) -> emits P anything (draw (S:=S) c el).
Proof. intros H st. split; [repeat constructor; exact H|]. intros; exact I. Qed.

Lemma emits_invoke c : P (Invoke c) -> emits P anything (invoke (S:=S) c).
Proof. intros H st. split; [repeat constructor; exact H|]. intros; exact I. Qed.

Lemma emits_bind {A B} (Q : A -> Prop) (R : B -> Prop) (m : M S A) (k : A -> M S B) :
  emits P Q m -> (forall a, Q a -> emits P R (k a)) -> emits P R (bind m k).
Proof.
  intros Hm Hk st. unfold bind.
  destruct (Hm st) as [He Hr].
  destruct (m st) as [[[a| |e] st1] o1]; simpl in *.
  - destruct (Hk a (Hr a eq_refl) st1) as [He2 Hr2].
    destruct (k a st1) as [[r st2] o2]; simpl in *.
    split; [apply Forall_app; split; assumption|exact Hr2].
  - split; [exact He|discriminate].
  - split; [exact He|discriminate].
Qed.

Lemma emits_call_login : P (Invoke CallLogin) -> emits P anything call_login.
Proof.
  intros H. unfold call_login. eapply emits_bind; [apply emits_invoke, H|].
  intros _ _. apply emits_quiet. intros st.
  destruct (login (session_state st) (world st)) as [[r ss] w]. reflexivity.
Qed.

Lemma emits_selectbox c label options :
  P (Draw c (Selectbox label options)) ->
  emits P (fun o => In o options) (selectbox (S:=S) c label options).
Proof.
  intros H. unfold selectbox.
  eapply emits_bind; [apply emits_draw, H|]. intros _ _.
  eapply emits_bind; [apply emits_get_widgets|]. intros w _.
  destruct (nth_error options (objective_index w)) as [o|] eqn:E.
  - intros st. split; [constructor|]. intros a [= <-].
    eapply nth_error_In, E.
  - intros st. split; [constructor|]. discriminate.
Qed.

Lemma emits_for_each {A} (xs : list A) (body : A -> M S unit) :
  (forall x, emits P anything (body x)) -> emits P anything (for_each xs body).
Proof.
  intros H. induction xs as [|x xs IH]; simpl; [apply emits_ret|].
  eapply emits_bind; [apply H|]. intros _ _. exact IH.
Qed.
End Emits.

(** One step of the proof that every event of a block satisfies a property;
    [solve_event] proves the property of a single event. *)
Ltac emits_step solve_event :=
  first
    [ apply emits_ret | apply emits_stop | apply emits_raise
    | apply emits_get_widgets | apply emits_get_session
    | apply emits_on_world | apply emits_read_world
    | apply emits_draw; solve_event
    | apply emits_invoke; solve_event
    | apply emits_call_login; solve_event
    | apply emits_for_each; intros [? [? ?]]
    | eapply emits_bind; [|intros ? ?]
    | match goal with
      | |- emits _ _ (if ?b then _ else _) => destruct b
      | |- emits _ _ (match ?x with _ => _ end) => destruct x
      end
    | progress cbv zeta ].

Ltac emits_block solve_event :=
  unfold tab_visual, tab_json, tab_cost, tab_performance, card_into,
    call_check_limit, call_choose_models, call_run_parallel, call_generate_report,
    call_time, call_path_exists, call_read_csv, session_user,
    columns, columns_spec, tabs, index, slider, number_input, text_area, button;
  repeat emits_step solve_event.

Ltac trivial_event := first [exact I | reflexivity | assumption].

Section EveryEvent.
Context {S : Type} {env : Environment S}.

Lemma run_analysis_objective task prompt :
  In task objectives ->
  emits objective_known anything (run_analysis (S:=S) task prompt).
Proof. intros Ht. unfold run_analysis. emits_block trivial_event. Qed.

Lemma main_objective : emits objective_known anything (main (S:=S)).
Proof.
  unfold main.
  do 9 (eapply emits_bind; [emits_block trivial_event|intros ? ?]).
  eapply emits_bind; [apply emits_selectbox; exact I|intros task Htask].
  do 7 (eapply emits_bind; [emits_block trivial_event|intros ? ?]).
  match goal with |- emits _ _ (if ?b then _ else _) => destruct b end;
    [apply run_analysis_objective; exact Htask|apply emits_ret].
Qed.

Lemma main_cost : emits cost_fixed anything (main (S:=S)).
Proof.
  unfold main.
  do 9 (eapply emits_bind; [emits_block trivial_event|intros ? ?]).
  eapply emits_bind; [apply emits_selectbox; exact I|intros task Htask].
  do 7 (eapply emits_bind; [emits_block trivial_event|intros ? ?]).
  match goal with |- emits _ _ (if ?b then _ else _) => destruct b end;
    [|apply emits_ret].
  unfold run_analysis. emits_block trivial_event.
Qed.
End EveryEvent.

(** ** Runs that differ in the model settings only *)

Section Agree.
Context {S : Type} {env : Environment S}.

Lemma res_rel_eq {A} (r r' : Res A) : res_rel eq r r' -> r = r'.
Proof. intros H. destruct H; congruence. Qed.

Lemma agree_ret {A} (a : A) : agree (S:=S) eq (ret a) (ret a).
Proof. intros st st' Hs. simpl. split; [constructor; reflexivity|]. split; [exact Hs|reflexivity]. Qed.

Lemma agree_stop {A} : agree (S:=S) (A:=A) eq stop stop.
Proof. intros st st' Hs. simpl. split; [constructor|]. split; [exact Hs|reflexivity]. Qed.

Lemma agree_raise {A} e : agree (S:=S) (A:=A) eq (raise e) (raise e).
Proof. intros st st' Hs. simpl. split; [constructor|]. split; [exact Hs|reflexivity]. Qed.

Lemma agree_draw c el : agree (S:=S) eq (draw c el) (draw c el).
Proof. intros st st' Hs. simpl. split; [constructor; reflexivity|]. split; [exact Hs|reflexivity]. Qed.

Lemma agree_invoke c : agree (S:=S) eq (invoke c) (invoke c).
Proof. intros st st' Hs. simpl. split; [constructor; reflexivity|]. split; [exact Hs|reflexivity]. Qed.

Lemma agree_get_session : agree (S:=S) eq get_session get_session.
Proof.
  intros st st' Hs. simpl. split; [constructor; apply Hs|]. split; [exact Hs|reflexivity].
Qed.

Lemma agree_on_world {A} (f : S -> Res A * S) : agree eq (on_world f) (on_world f).
Proof.
  intros st st' Hs. unfold on_world. destruct Hs as [Hw [Hss Hwd]]. rewrite <- Hwd.
  destruct (f (world st)) as [r w]. simpl.
  split; [destruct r; constructor; reflexivity|].
  split; [|reflexivity]. split; [exact Hw|]. split; [exact Hss|reflexivity].
Qed.

Lemma agree_read_world {A} (f : S -> Res A) : agree eq (read_world f) (read_world f).
Proof.
  intros st st' Hs. unfold read_world. simpl.
  destruct Hs as [Hw [Hss Hwd]]. rewrite <- Hwd.
  split; [destruct (f (world st)); constructor; reflexivity|].
  split; [|reflexivity]. split; [exact Hw|]. split; [exact Hss|exact Hwd].
Qed.

Lemma agree_bind {A B} (R : A -> A -> Prop) (R' : B -> B -> Prop)
  (m m' : M S A) (k k' : A -> M S B) :
  agree R m m' -> (forall a b, R a b -> agree R' (k a) (k' b)) ->
  agree R' (bind m k) (bind m' k').
Proof.
  intros Hm Hk st st' Hs. unfold bind.
  destruct (Hm st st' Hs) as [Hr [Hs1 Ho]].
  destruct (m st) as [[r st1] o1], (m' st') as [[r' st1'] o1']. simpl in *.
  subst o1'. destruct Hr as [a b Hab| |e].
  - destruct (Hk a b Hab st1 st1' Hs1) as [Hr2 [Hs2 Ho2]].
    destruct (k a st1) as [[r2 st2] o2], (k' b st1') as [[r2' st2'] o2']. simpl in *.
    subst o2'. split; [exact Hr2|]. split; [exact Hs2|reflexivity].
  - simpl. split; [constructor|]. split; [exact Hs1|reflexivity].
  - simpl. split; [constructor|]. split; [exact Hs1|reflexivity].
Qed.

Lemma agree_call_login : agree eq call_login call_login.
Proof.
  unfold call_login. eapply agree_bind; [apply agree_invoke|]. intros _ _ _.
  intros st st' [Hw [Hss Hwd]]. rewrite <- Hss, <- Hwd.
  destruct (login (session_state st) (world st)) as [[r ss] w]. simpl.
  split; [destruct r; constructor; reflexivity|].
  split; [|reflexivity]. split; [exact Hw|]. split; reflexivity.
Qed.

Lemma agree_get_widgets : agree (S:=S) same_request get_widgets get_widgets.
Proof.
  intros st st' Hs. simpl. split; [constructor; apply Hs|]. split; [exact Hs|reflexivity].
Qed.

Lemma agree_ret_any {A} (a b : A) : agree (S:=S) (fun _ _ => True) (ret a) (ret b).
Proof.
  intros st st' Hs. simpl. split; [constructor; exact I|]. split; [exact Hs|reflexivity].
Qed.

(** The two model settings: the values may differ. *)
Lemma agree_slider c label :
  agree (S:=S) (fun _ _ => True) (slider c label) (slider c label).
Proof.
  unfold slider. eapply agree_bind; [apply agree_draw|]. intros _ _ _.
  eapply agree_bind; [apply agree_get_widgets|]. intros w w' _.
  apply agree_ret_any.
Qed.

Lemma agree_number_input c label :
  agree (S:=S) (fun _ _ => True) (number_input c label) (number_input c label).
Proof.
  unfold number_input. eapply agree_bind; [apply agree_draw|]. intros _ _ _.
  eapply agree_bind; [apply agree_get_widgets|]. intros w w' _.
  apply agree_ret_any.
Qed.

(** The widgets of the request: the values are the same. *)
Lemma agree_selectbox c label options :
  agree (S:=S) eq (selectbox c label options) (selectbox c label options).
Proof.
  unfold selectbox. eapply agree_bind; [apply agree_draw|]. intros _ _ _.
  eapply agree_bind; [apply agree_get_widgets|]. intros w w' [Ho _].
  rewrite <- Ho.
  destruct (nth_error options (objective_index w)); [apply agree_ret|apply agree_raise].
Qed.

Lemma agree_text_area c label :
  agree (S:=S) eq (text_area c label) (text_area c label).
Proof.
  unfold text_area. eapply agree_bind; [apply agree_draw|]. intros _ _ _.
  eapply agree_bind; [apply agree_get_widgets|]. intros w w' [_ [Hp _]].
  rewrite <- Hp. apply agree_ret.
Qed.

Lemma agree_button c label :
  agree (S:=S) eq (button c label) (button c label).
Proof.
  unfold button. eapply agree_bind; [apply agree_draw|]. intros _ _ _.
  eapply agree_bind; [apply agree_get_widgets|]. intros w w' [_ [_ Hb]].
  rewrite <- Hb. apply agree_ret.
Qed.

Lemma agree_for_each {A} (xs : list A) (body : A -> M S unit) :
  (forall x, agree eq (body x) (body x)) ->
  agree eq (for_each xs body) (for_each xs body).
Proof.
  intros H. induction xs as [|x xs IH]; simpl; [apply agree_ret|].
  eapply agree_bind; [apply H|]. intros _ _ _. exact IH.
Qed.
End Agree.

Ltac agree_go :=
  first
    [ apply agree_ret | apply agree_stop | apply agree_raise
    | apply agree_draw | apply agree_invoke | apply agree_get_session
    | apply agree_on_world | apply agree_read_world | apply agree_call_login
    | apply agree_slider | apply agree_number_input
    | apply agree_selectbox | apply agree_text_area | apply agree_button
    | apply agree_for_each; intros [? [? ?]]; agree_go
    | eapply agree_bind; [agree_go|intros ? ? ?; try subst; agree_go]
    | match goal with
      | |- agree _ (if ?b then _ else _) _ => destruct b; agree_go
      | |- agree _ (match ?x with _ => _ end) _ => destruct x; agree_go
      end
    | progress cbv zeta; agree_go ].

Ltac agree_block :=
  unfold script, imports, page_setup, sidebar, main, run_analysis,
    tab_visual, tab_json, tab_cost, tab_performance, card_into,
    call_check_limit, call_choose_models, call_run_parallel, call_generate_report,
    call_time, call_path_exists, call_read_csv, session_user,
    columns, columns_spec, tabs, index;
  agree_go.

Section Settings.
Context {S : Type} {env : Environment S}.

Lemma script_agrees : agree eq (script (S:=S)) script.
Proof. agree_block. Qed.
End Settings.

(** ** Accepted runs *)

Section AcceptedRuns.
Context {S : Type} {env : Environment S}.

Lemma main_accepted i ss (w : S) u task models responses elapsed st :
  Accepted i ss w u task models responses elapsed st ->
  run main i ss w =
    (fst (fst (tab_performance [Tab 3] st)),
     snd (fst (tab_performance [Tab 3] st)),
     Invoke CallLogin :: page_events
     ++ analysis_events u task (prompt_text i) models responses elapsed
     ++ snd (tab_performance [Tab 3] st)).
Proof.
  intros [ss1 w1 u' task' w2 models' w3 responses' w4 w5
            Hl Hu Ht Hb Hc Hp Hm Hr Hne Hg].
  rewrite (main_front i ss w ss1 w1 u' task' Hl Hu Ht Hb).
  rewrite (run_analysis_accepted task' (prompt_text i)
             {| widgets := i; session_state := ss1; world := w1 |}
             u' w2 models' w3 responses' w4 w5 Hu Hc Hp Hm Hr Hne Hg).
  reflexivity.
Qed.


Lemma calls_analysis u task prompt models responses elapsed :
  calls (analysis_events u task prompt models responses elapsed) =
    [ CallCheckLimit u; CallChooseModels task; CallTime;
      CallRunParallel prompt models; CallTime;
      CallGenerateReport prompt responses ].
Proof.
  unfold analysis_events, visual_events.
  rewrite !calls_app.
  change (calls (Draw [Tab 0] (Columns (repeat 1 (length responses)))
                 :: card_events [Tab 0] (Py.enumerate responses)))
    with (calls (card_events [Tab 0] (Py.enumerate responses))).
  rewrite calls_cards. reflexivity.
Qed.

Lemma reported_cost_app a b : reported_cost (a ++ b) = reported_cost a ++ reported_cost b.
Proof. apply omap_app. Qed.

Lemma reported_cost_cards tab1 numbered : reported_cost (card_events tab1 numbered) = [].
Proof. induction numbered as [|e l IH]; [reflexivity|exact IH]. Qed.

Lemma reported_cost_performance (st : State S) :
  reported_cost (snd (tab_performance [Tab 3] st)) = [].
Proof.
  unfold tab_performance, call_path_exists, call_read_csv, read_world, bind, invoke.
  simpl. destruct (path_exists metrics_file (world st)); simpl; [|reflexivity].
  destruct (read_csv metrics_file (world st)) as [df| |e]; simpl; try reflexivity.
  destruct (to_datetime _) as [instants| |e]; simpl; try reflexivity.
  destruct (resample_count _) as [counts| |e]; reflexivity.
Qed.

(** An accepted run shows one estimated cost. *)
Lemma accepted_run_reports_cost i ss (w : S) u task models responses elapsed st :
  Accepted i ss w u task models responses elapsed st ->
  reported_cost (events (run main i ss w)) = ["$0.0042"].
Proof.
  intros H. rewrite (main_accepted _ _ _ _ _ _ _ _ _ H). unfold events. cbn [snd].
  change (reported_cost (Invoke CallLogin :: page_events ++ ?x)) with (reported_cost x).
  rewrite reported_cost_app, reported_cost_performance, app_nil_r.
  unfold analysis_events, visual_events. rewrite !reported_cost_app.
  change (reported_cost (Draw [Tab 0] (Columns (repeat 1 (length responses)))
                         :: card_events [Tab 0] (Py.enumerate responses)))
    with (reported_cost (card_events [Tab 0] (Py.enumerate responses))).
  rewrite reported_cost_cards. reflexivity.
Qed.

(** With an empty response mapping the run raises in the Visual tab, before
    the report is generated. *)
Lemma run_analysis_empty_responses task prompt (st : State S) u w2 models w3 w4 :
  session_state st !! "user" = Some u ->
  check_limit u (world st) = (Ret true, w2) ->
  Py.truthy (Py.strip prompt) = true ->
  choose_models task w2 = (Ret models, w3) ->
  run_parallel prompt models (snd (time_time w3)) = (Ret [], w4) ->
  fst (fst (run_analysis task prompt st)) = Raise "StreamlitAPIException" /\
  calls (snd (run_analysis task prompt st)) =
    [ CallCheckLimit u; CallChooseModels task; CallTime;
      CallRunParallel prompt models; CallTime ].
Proof.
  intros Hu Hc Hp Hm Hr.
  unfold run_analysis, session_user, call_check_limit, call_choose_models,
    call_time, call_run_parallel, tab_json, on_world, get_session, bind, invoke.
  rewrite Hu. simpl. rewrite Hc. simpl. rewrite Hp. simpl. rewrite Hm. simpl.
  rewrite Hr. simpl. split; reflexivity.
Qed.
End AcceptedRuns.

(** * The claims *)

Lemma calls_In c evs : In c (calls evs) -> In (Invoke c) evs.
Proof.
  induction evs as [|e evs IH]; simpl; [tauto|].
  destruct e as [where_ el|c']; simpl.
  - intros H. right. exact (IH H).
  - intros [->|H]; [left; reflexivity|right; exact (IH H)].
Qed.

Lemma reported_cost_In v evs :
  In v (reported_cost evs) -> exists e, In e evs /\ cost_of e = Some v.
Proof.
  induction evs as [|e evs IH]; simpl; [tauto|].
  unfold reported_cost. simpl. destruct (cost_of e) as [v'|] eqn:E; simpl.
  - intros [->|H]; [exists e; split; [left; reflexivity|exact E]|].
    destruct (IH H) as [e' [He' Hc]]. exists e'. split; [right; exact He'|exact Hc].
  - intros H. destruct (IH H) as [e' [He' Hc]]. exists e'. split; [right; exact He'|exact Hc].
Qed.

Lemma run_cost_fixed {S} {env : Environment S} i ss (w : S) v :
  In v (reported_cost (events (run main i ss w))) -> v = "$0.0042".
Proof.
  intros H. apply reported_cost_In in H. destruct H as [e [He Hc]].
  destruct (main_cost {| widgets := i; session_state := ss; world := w |}) as [Hall _].
  rewrite Forall_forall in Hall. apply list_elem_of_In in He.
  specialize (Hall e He). unfold cost_fixed in Hall. rewrite Hc in Hall. exact Hall.
Qed.

Section Claims.
Context {S : Type} {env : Environment S}.

(** C1 (as amended).  When the prompt is blank and the rate limiter allows
    the request, the run stops with the warning [Please enter a prompt.];
    the only helper calls are [login] and one [check_limit] for the
    caller, made before the prompt is examined, so no model is selected and
    no backend is called, and the world is left as [check_limit] left it. *)
Theorem blank_prompt_rejected_after_rate_check i ss (w : S) ss1 w1 u task w2 :
  login ss w = (Ret tt, ss1, w1) ->
  ss1 !! "user" = Some u ->
  nth_error objectives (objective_index i) = Some task ->
  run_clicked i = true ->
  check_limit u w1 = (Ret true, w2) ->
  blank (prompt_text i) ->
  outcome (run main i ss w) = Halt /\
  events (run main i ss w) =
    Invoke CallLogin :: page_events
    ++ [ Invoke (CallCheckLimit u); Draw [] (Warning "Please enter a prompt.") ] /\
  calls (events (run main i ss w)) = [CallLogin; CallCheckLimit u] /\
  final (run main i ss w) = {| widgets := i; session_state := ss1; world := w2 |}.
Proof.
  intros Hl Hu Ht Hb Hc Hp. apply strip_blank in Hp.
  rewrite (main_front i ss w ss1 w1 u task Hl Hu Ht Hb).
  rewrite (run_analysis_blank task (prompt_text i)
             {| widgets := i; session_state := ss1; world := w1 |} u w2 Hu Hc Hp).
  repeat split.
Qed.


(** C4.  When the rate-limit check for the caller's identity does not allow
    the request, the run stops at once with the error
    [Rate limit reached.]: it selects no model, dispatches nothing and
    generates no report, and the session and the world are as the check
    left them. *)
Theorem rate_limited_run_stops i ss (w : S) ss1 w1 u task w2 :
  login ss w = (Ret tt, ss1, w1) ->
  ss1 !! "user" = Some u ->
  nth_error objectives (objective_index i) = Some task ->
  run_clicked i = true ->
  check_limit u w1 = (Ret false, w2) ->
  outcome (run main i ss w) = Halt /\
  events (run main i ss w) =
    Invoke CallLogin :: page_events
    ++ [ Invoke (CallCheckLimit u); Draw [] (Error "Rate limit reached.") ] /\
  calls (events (run main i ss w)) = [CallLogin; CallCheckLimit u] /\
  steps (events (run main i ss w)) = [RateCheck] /\
  final (run main i ss w) = {| widgets := i; session_state := ss1; world := w2 |}.
Proof.
  intros Hl Hu Ht Hb Hc.
  rewrite (main_front i ss w ss1 w1 u task Hl Hu Ht Hb).
  rewrite (run_analysis_limited task (prompt_text i)
             {| widgets := i; session_state := ss1; world := w1 |} u w2 Hu Hc).
  repeat split.
Qed.

(** C5.  In every run, the objective passed to model selection is the
    label of one of the four objectives General, Coding, FastResponse and
    CostSaving. *)
Theorem objective_is_enumerated i ss (w : S) task :
  In (CallChooseModels task) (calls (events (run main i ss w))) ->
  exists o : Objective, task = objective_label o.
Proof.
  intros H. apply calls_In in H.
  destruct (main_objective {| widgets := i; session_state := ss; world := w |})
    as [Hall _].
  rewrite Forall_forall in Hall. apply list_elem_of_In in H.
  specialize (Hall _ H). simpl in Hall.
  destruct Hall as [<-|[<-|[<-|[<-|[]]]]].
  - exists General. reflexivity.
  - exists Coding. reflexivity.
  - exists FastResponse. reflexivity.
  - exists CostSaving. reflexivity.
Qed.

(** C8.  The identity is established by [login] before anything else: when
    the session holds no user after [login], the run does not complete and
    calls no other helper; and a run that reaches model selection or
    dispatch has a user in the session, whose identity is the key of the
    rate-limit check that comes right after [login] and before the
    selection and the dispatch. *)
Theorem identity_known_before_dispatch i ss (w : S) r0 ss1 w1 :
  login ss w = (r0, ss1, w1) ->
  (ss1 !! "user" = None ->
   outcome (run main i ss w) <> Ret tt /\
   calls (events (run main i ss w)) = [CallLogin]) /\
  (forall c, In c (calls (events (run main i ss w))) -> dispatching c = true ->
   exists u rest,
     ss1 !! "user" = Some u /\
     calls (events (run main i ss w)) = CallLogin :: CallCheckLimit u :: rest /\
     In c rest).
Proof.
  intros Hl. split.
  - intros Hu. destruct r0 as [[]| |e].
    + destruct (main_no_user i ss w ss1 w1 Hl Hu) as [-> ->]. split; [discriminate|reflexivity].
    + destruct (main_no_login i ss w _ ss1 w1 Hl) as [-> ->]; [discriminate|].
      split; [discriminate|reflexivity].
    + destruct (main_no_login i ss w _ ss1 w1 Hl) as [-> ->]; [discriminate|].
      split; [discriminate|reflexivity].
  - intros c Hc Hd.
    destruct (main_calls i ss w r0 ss1 w1 Hl) as [Hcalls|[u [rest [Hu Hcalls]]]];
      rewrite Hcalls in Hc.
    + destruct Hc as [<-|[]]. discriminate.
    + exists u, rest. split; [exact Hu|]. split; [exact Hcalls|].
      destruct Hc as [<-|[<-|Hc]]; [discriminate|discriminate|exact Hc].
Qed.

(** C9.  When the metrics file does not exist at the time the Performance
    tab is drawn, an accepted run draws the warning [No metrics available.]
    there, reads no file and draws no chart, and the run ends normally. *)
Theorem missing_metrics_file_is_reported i ss (w : S) u task models responses elapsed st :
  Accepted i ss w u task models responses elapsed st ->
  path_exists metrics_file (world st) = false ->
  outcome (run main i ss w) = Ret tt /\
  events (run main i ss w) =
    Invoke CallLogin :: page_events
    ++ analysis_events u task (prompt_text i) models responses elapsed
    ++ [ Invoke (CallPathExists metrics_file);
         Draw [Tab 3] (Warning "No metrics available.") ] /\
  calls (events (run main i ss w)) =
    [ CallLogin; CallCheckLimit u; CallChooseModels task; CallTime;
      CallRunParallel (prompt_text i) models; CallTime;
      CallGenerateReport (prompt_text i) responses;
      CallPathExists metrics_file ].
Proof.
  intros H Hp. rewrite (main_accepted _ _ _ _ _ _ _ _ _ H).
  rewrite (tab_performance_absent [Tab 3] st Hp).
  unfold outcome, events. cbn [fst snd]. split; [reflexivity|].
  split; [reflexivity|].
  change (calls (Invoke CallLogin :: page_events ++ ?x)) with (CallLogin :: calls x).
  rewrite calls_app, calls_analysis. reflexivity.
Qed.

(** C10.  The Visual tab asks for as many columns as the response mapping
    has entries.  For an empty mapping the construction of the columns
    raises and nothing is drawn; for a mapping that is not empty one row
    with one column per entry is drawn, and entry number [k] of the
    mapping, in insertion order, is drawn as card number [k], in column
    [k]. *)
Theorem visual_tab_needs_responses tab1 (st : State S) :
  tab_visual tab1 [] st = (Raise "StreamlitAPIException", st, []) /\
  forall responses, responses <> [] ->
    tab_visual tab1 responses st =
      (Ret tt, st,
       Draw tab1 (Columns (repeat 1 (length responses)))
       :: card_events tab1 (Py.enumerate responses)) /\
    length (repeat 1 (length responses)) = length responses /\
    length (card_events tab1 (Py.enumerate responses)) = length responses /\
    forall k model text,
      nth_error responses k = Some (model, text) ->
      nth_error (card_events tab1 (Py.enumerate responses)) k =
        Some (Draw (tab1 ++ [Column k]) (Markdown (model_card model text) true)).
Proof.
  split; [apply tab_visual_empty|].
  intros responses Hne. split; [apply tab_visual_run; exact Hne|].
  split; [apply repeat_length|]. split.
  - unfold card_events. rewrite length_map. apply enumerate_from_length.
  - intros k model text H. exact (cards_nth tab1 responses 0 k model text H).
Qed.

(** C2.  The two model settings of the sidebar never reach the backends:
    two runs of the script whose browser inputs differ at most in the
    temperature and in max_tokens end the same way, make the same helper
    calls with the same arguments, draw the same elements and leave the
    same session and world. *)
Theorem model_settings_do_not_reach_backends i i' ss (w : S) :
  same_request i i' ->
  outcome (run script i ss w) = outcome (run script i' ss w) /\
  events (run script i ss w) = events (run script i' ss w) /\
  session_state (final (run script i ss w)) = session_state (final (run script i' ss w)) /\
  world (final (run script i ss w)) = world (final (run script i' ss w)).
Proof.
  intros Hreq.
  destruct (script_agrees {| widgets := i; session_state := ss; world := w |}
              {| widgets := i'; session_state := ss; world := w |})
    as [Hr [[_ [Hss Hw]] Ho]].
  - split; [exact Hreq|]. split; reflexivity.
  - unfold run, outcome, events, final.
    split; [apply res_rel_eq; exact Hr|]. split; [exact Ho|]. split; [exact Hss|exact Hw].
Qed.
End Claims.


(** C7.  The estimated cost a run reports is the constant [$0.0042]: any two
    runs, whatever their environments, requests and responses, that report an
    estimated cost report the same one. *)
Theorem estimated_cost_is_constant
  {S1} {env1 : Environment S1} {S2} {env2 : Environment S2}
  i1 ss1 (w1 : S1) i2 ss2 (w2 : S2) v1 v2 :
  In v1 (reported_cost (events (run main i1 ss1 w1))) ->
  In v2 (reported_cost (events (run main i2 ss2 w2))) ->
  v1 = "$0.0042" /\ v2 = v1.
Proof.
  intros H1 H2. apply run_cost_fixed in H1. apply run_cost_fixed in H2.
  split; congruence.
Qed.

(** * The claims on concrete requests *)

#[local] Existing Instance Demo.env.


Lemma demo_accepted_unrecorded :
  exists elapsed st,
    Accepted Demo.request ∅ Demo.world_unrecorded "u1" "Coding"
      ["coder-large"; "coder-small"] Demo.answers elapsed st /\
    path_exists metrics_file (world st) = false.
Proof.
  eexists. eexists. split.
  - eapply (accepted_run Demo.request ∅ Demo.world_unrecorded);
      [ reflexivity | reflexivity | reflexivity | reflexivity | reflexivity
      | reflexivity | reflexivity | reflexivity | discriminate | reflexivity ].
  - reflexivity.
Defined.

(** C1, counterexample.  The prompt of three spaces is blank, and the run
    with it calls [check_limit] for [u1]; with the rate limiter of the design
    the count of [u1] goes from 0 to 1: the rejected attempt is charged. *)
Lemma blank_prompt_consumes_quota :
  blank (prompt_text Demo.blank_request) /\
  ~ (forall u, ~ In (CallCheckLimit u)
                 (calls (events (run main Demo.blank_request ∅ Demo.world0)))) /\
  Demo.charged "u1" Demo.world0 = 0 /\
  Demo.charged "u1" (world (final (run main Demo.blank_request ∅ Demo.world0))) = 1.
Proof.
  split; [repeat constructor|]. split; [|split; reflexivity].
  intros H. apply (H "u1"). right. left. reflexivity.
Qed.

Lemma blank_prompt_rejected_after_rate_check_witness :
  blank (prompt_text Demo.blank_request) /\
  outcome (run main Demo.blank_request ∅ Demo.world0) = Halt /\
  calls (events (run main Demo.blank_request ∅ Demo.world0))
    = [CallLogin; CallCheckLimit "u1"].
Proof.
  assert (Hb : blank (prompt_text Demo.blank_request)) by (repeat constructor).
  split; [exact Hb|].
  edestruct (blank_prompt_rejected_after_rate_check Demo.blank_request ∅ Demo.world0)
    as [Ho [_ [Hc _]]];
    [reflexivity|reflexivity|reflexivity|reflexivity|reflexivity|exact Hb|].
  split; [exact Ho|exact Hc].
Defined.

(** C2, at a concrete request: with temperature 0.7 and 1024 tokens, or with
    temperature 0 and 256 tokens, the script makes the same calls; the
    dispatch receives the prompt and the models only. *)
Lemma model_settings_do_not_reach_backends_witness :
  same_request Demo.request Demo.request_cold /\
  events (run script Demo.request ∅ Demo.world0)
    = events (run script Demo.request_cold ∅ Demo.world0) /\
  In (CallRunParallel "write a sort function" ["coder-large"; "coder-small"])
     (calls (events (run script Demo.request_cold ∅ Demo.world0))).
Proof.
  assert (Hs : same_request Demo.request Demo.request_cold)
    by (split; [reflexivity|split; reflexivity]).
  split; [exact Hs|]. split.
  - exact (proj1 (proj2 (model_settings_do_not_reach_backends
                           Demo.request Demo.request_cold ∅ Demo.world0 Hs))).
  - vm_compute. right. right. right. right. left. reflexivity.
Defined.



Lemma rate_limited_run_stops_witness :
  outcome (run main Demo.request ∅ Demo.world_limited) = Halt /\
  calls (events (run main Demo.request ∅ Demo.world_limited))
    = [CallLogin; CallCheckLimit "u1"] /\
  steps (events (run main Demo.request ∅ Demo.world_limited)) = [RateCheck].
Proof.
  edestruct (rate_limited_run_stops Demo.request ∅ Demo.world_limited)
    as [Ho [_ [Hc [Hs _]]]];
    [reflexivity|reflexivity|reflexivity|reflexivity|reflexivity|].
  split; [exact Ho|]. split; [exact Hc|exact Hs].
Defined.

Lemma objective_is_enumerated_witness :
  In (CallChooseModels "Coding") (calls (events (run main Demo.request ∅ Demo.world0))) /\
  exists o : Objective, "Coding" = objective_label o.
Proof.
  assert (H : In (CallChooseModels "Coding")
                (calls (events (run main Demo.request ∅ Demo.world0))))
    by (vm_compute; right; right; left; reflexivity).
  split; [exact H|].
  exact (objective_is_enumerated Demo.request ∅ Demo.world0 "Coding" H).
Defined.

(** The sample request is accepted in the world whose metrics file holds
    the three measurements, and the Performance tab reads them. *)
Lemma demo_accepted_measured :
  exists elapsed st,
    Accepted Demo.request ∅ Demo.world_measured "u1" "Coding"
      ["coder-large"; "coder-small"] Demo.answers elapsed st /\
    path_exists metrics_file (world st) = true /\
    read_csv metrics_file (world st) = Ret Demo.three_rows /\
    to_datetime (map Pd.timestamp Demo.three_rows) =
      Ret [ Some 960000000000%Z; Some 970000000000%Z; Some 980000000000%Z ].
Proof.
  eexists. eexists. split.
  - eapply (accepted_run Demo.request ∅ Demo.world_measured);
      [ reflexivity | reflexivity | reflexivity | reflexivity | reflexivity
      | reflexivity | reflexivity | reflexivity | discriminate | reflexivity ].
  - split; [reflexivity|]. split; reflexivity.
Defined.



Lemma estimated_cost_is_constant_witness :
  In "$0.0042" (reported_cost (events (run main Demo.request ∅ Demo.world0))) /\
  In "$0.0042" (reported_cost (events (run main Demo.request_general ∅ Demo.world_unrecorded))) /\
  "$0.0042" = "$0.0042".
Proof.
  assert (H1 : In "$0.0042" (reported_cost (events (run main Demo.request ∅ Demo.world0))))
    by (vm_compute; left; reflexivity).
  assert (H2 : In "$0.0042"
                 (reported_cost (events (run main Demo.request_general ∅
                                           Demo.world_unrecorded))))
    by (vm_compute; left; reflexivity).
  split; [exact H1|]. split; [exact H2|].
  exact (proj2 (estimated_cost_is_constant Demo.request ∅ Demo.world0
                  Demo.request_general ∅ Demo.world_unrecorded _ _ H1 H2)).
Defined.

Lemma identity_known_before_dispatch_witness :
  (outcome (run main Demo.request ∅ Demo.world_anonymous) <> Ret tt /\
   calls (events (run main Demo.request ∅ Demo.world_anonymous)) = [CallLogin]) /\
  exists u rest,
    (<["user" := "u1"]> ∅ : gmap string string) !! "user" = Some u /\
    calls (events (run main Demo.request ∅ Demo.world0))
      = CallLogin :: CallCheckLimit u :: rest /\
    In (CallRunParallel "write a sort function" ["coder-large"; "coder-small"]) rest.
Proof.
  split.
  - edestruct (identity_known_before_dispatch Demo.request ∅ Demo.world_anonymous)
      as [Hnone _]; [reflexivity|].
    exact (Hnone eq_refl).
  - edestruct (identity_known_before_dispatch Demo.request ∅ Demo.world0)
      as [_ Hsome]; [reflexivity|].
    apply Hsome; [|reflexivity].
    vm_compute. right. right. right. right. left. reflexivity.
Defined.

Lemma missing_metrics_file_is_reported_witness :
  outcome (run main Demo.request ∅ Demo.world_unrecorded) = Ret tt /\
  calls (events (run main Demo.request ∅ Demo.world_unrecorded)) =
    [ CallLogin; CallCheckLimit "u1"; CallChooseModels "Coding"; CallTime;
      CallRunParallel (prompt_text Demo.request) ["coder-large"; "coder-small"];
      CallTime;
      CallGenerateReport (prompt_text Demo.request) Demo.answers;
      CallPathExists metrics_file ].
Proof.
  destruct demo_accepted_unrecorded as [elapsed [st [H Hp]]].
  destruct (missing_metrics_file_is_reported Demo.request ∅ Demo.world_unrecorded
              _ _ _ _ _ _ H Hp) as [Ho [_ Hc]].
  split; [exact Ho|exact Hc].
Defined.

Lemma visual_tab_needs_responses_witness :
  Demo.answers <> [] /\
  tab_visual [Tab 0] Demo.answers
    {| widgets := Demo.request; session_state := ∅; world := Demo.world0 |}
  = (Ret tt,
     {| widgets := Demo.request; session_state := ∅; world := Demo.world0 |},
     Draw [Tab 0] (Columns [1; 1])
     :: card_events [Tab 0] (Py.enumerate Demo.answers)).
Proof.
  assert (Hne : Demo.answers <> []) by discriminate.
  split; [exact Hne|].
  exact (proj1 (proj2 (visual_tab_needs_responses [Tab 0]
                         {| widgets := Demo.request; session_state := ∅;
                            world := Demo.world0 |})
                  Demo.answers Hne)).
Defined.

(** * Further properties of the script *)

(** ** The module level: imports, page set-up and sidebar *)

Section ModuleLevel.
Context {S : Type} {env : Environment S}.

Lemma page_setup_run (st : State S) : page_setup st = (Ret tt, st, setup_events).
Proof. reflexivity. Qed.

Lemma sidebar_run (st : State S) :
  sidebar st = (Ret tt, st, sidebar_events (session_state st)).
Proof.
  unfold sidebar, sidebar_events, slider, number_input, get_session, get_widgets,
    draw, bind, ret.
  destruct (session_state st !! "user"); reflexivity.
Qed.

Lemma imports_run (st : State S) :
  import_error = None -> imports st = (Ret tt, st, []).
Proof. intros H. unfold imports. rewrite H. reflexivity. Qed.

Lemma script_run i ss (w : S) :
  import_error = None ->
  run script i ss w =
    (outcome (run main i ss w), final (run main i ss w),
     setup_events ++ sidebar_events ss ++ events (run main i ss w)).
Proof.
  intros H. unfold run, script.
  rewrite (bind_Ret imports _ _ tt _ [] (imports_run _ H)).
  rewrite (bind_Ret page_setup _ _ tt _ setup_events (page_setup_run _)).
  rewrite (bind_Ret sidebar _ _ tt _ _ (sidebar_run _)).
  reflexivity.
Qed.

(** X1.  When the imports succeed, the script draws the page configuration
    and the style sheet, then the sidebar, and then runs [main]: it ends
    as [main] ends, in the state [main] leaves.  The sidebar calls no
    helper, and it shows the badge of the user that the session held when
    the script started; a user that [login] signs in during this run is
    not shown, because [login] runs later, inside [main]. *)
Theorem script_draws_sidebar_then_runs_main i ss (w : S) :
  import_error = None ->
  outcome (run script i ss w) = outcome (run main i ss w) /\
  final (run script i ss w) = final (run main i ss w) /\
  events (run script i ss w) =
    setup_events ++ sidebar_events ss ++ events (run main i ss w) /\
  calls (events (run script i ss w)) = calls (events (run main i ss w)).
Proof.
  intros H. rewrite (script_run i ss w H). unfold outcome, final, events. cbn [fst snd].
  repeat split.
  rewrite !calls_app.
  assert (Hs : calls (sidebar_events ss) = []).
  { unfold sidebar_events. destruct (ss !! "user"); reflexivity. }
  rewrite Hs. reflexivity.
Qed.

(** X2.  When one of the imports of the helper modules raises, the script
    shows the exception as an error and stops: no page configuration, no
    sidebar, no [login], no helper call, and session and world are
    untouched. *)
Theorem import_failure_stops_script i ss (w : S) e :
  import_error = Some e ->
  run script i ss w =
    (Halt, {| widgets := i; session_state := ss; world := w |}, [Draw [] (Error e)]).
Proof.
  intros H. unfold run, script, imports, bind, draw, stop. rewrite H. reflexivity.
Qed.

(** X3.  A visitor for whom [login] returns without leaving a user in the
    session gets the page set-up and the sidebar with its two model
    settings, and nothing of the main page: the script stops right after
    [login], with no title, no objective selector, no prompt area and no
    button drawn, and no other helper called. *)
Theorem unauthenticated_visitor_sees_sidebar_only i ss (w : S) ss1 w1 :
  import_error = None ->
  login ss w = (Ret tt, ss1, w1) ->
  ss1 !! "user" = None ->
  outcome (run script i ss w) = Halt /\
  events (run script i ss w) = setup_events ++ sidebar_events ss ++ [Invoke CallLogin] /\
  final (run script i ss w) = {| widgets := i; session_state := ss1; world := w1 |}.
Proof.
  intros H Hl Hu. rewrite (script_run i ss w H).
  unfold outcome, final, events. cbn [fst snd].
  unfold run, main, call_login, get_session, invoke, bind.
  simpl. rewrite Hl. simpl. rewrite Hu. repeat split.
Qed.
End ModuleLevel.

(** ** The guards of [main] *)

Lemma rate_checks_app a b : rate_checks (a ++ b) = rate_checks a + rate_checks b.
Proof.
  unfold rate_checks. induction a as [|e a IH]; [reflexivity|].
  simpl. destruct (is_rate_check e); simpl; rewrite IH; reflexivity.
Qed.

Lemma rate_checks_none evs : Forall no_rate_check evs -> rate_checks evs = 0.
Proof.
  unfold rate_checks. induction 1 as [|e evs He _ IH]; [reflexivity|].
  simpl. rewrite He. exact IH.
Qed.

Section Guards.
Context {S : Type} {env : Environment S}.

Lemma rate_checks_bind {A B} (m : M S A) (k : A -> M S B) st n1 n2 :
  rate_checks (snd (m st)) <= n1 ->
  (forall a st', rate_checks (snd (k a st')) <= n2) ->
  rate_checks (snd (bind m k st)) <= n1 + n2.
Proof.
  intros Hm Hk. unfold bind.
  destruct (m st) as [[[a| |e] st1] o1]; simpl in *; [|lia|lia].
  specialize (Hk a st1). destruct (k a st1) as [[r st2] o2]. simpl in *.
  rewrite rate_checks_app. lia.
Qed.

Lemma emits_no_checks {A} (m : M S A) (st : State S) :
  emits no_rate_check anything m -> rate_checks (snd (m st)) <= 0.
Proof. intros H. destruct (H st) as [Hall _]. rewrite (rate_checks_none _ Hall). lia. Qed.

Lemma run_analysis_checks_once task prompt (st : State S) :
  rate_checks (snd (run_analysis task prompt st)) <= 1.
Proof.
  unfold run_analysis.
  apply (rate_checks_bind _ _ _ 0 1);
    [apply emits_no_checks; emits_block trivial_event|intros user st1].
  apply (rate_checks_bind _ _ _ 1 0);
    [rewrite call_check_limit_events; apply Nat.le_refl|intros allowed st2].
  apply emits_no_checks. emits_block trivial_event.
Qed.

Lemma selectbox_no_checks c label options :
  emits no_rate_check anything (selectbox (S:=S) c label options).
Proof.
  eapply emits_weaken; [|apply emits_selectbox; reflexivity].
  intros; exact I.
Qed.

(** X4.  No run checks the rate limit more than once: whatever the
    browser input, the session, the world and the helpers, the events of a
    run of [main] hold at most one call of [check_limit]. *)
Theorem rate_limit_checked_at_most_once i ss (w : S) :
  rate_checks (events (run main i ss w)) <= 1.
Proof.
  unfold events, run, main.
  repeat (apply (rate_checks_bind _ _ _ 0 1);
          [ apply emits_no_checks;
            first [ apply selectbox_no_checks
                  | unfold text_area, button; emits_block trivial_event ]
          | intros ? ? ]).
  match goal with |- rate_checks (snd ((if ?b then _ else _) _)) <= 1 => destruct b end.
  - apply run_analysis_checks_once.
  - exact (Nat.le_0_l 1).
Qed.

(** X5.  A rerun of the script without a press of the button draws the
    main page and returns: after [login] no helper is called, so the rate
    limiter is not consulted, no model is selected, nothing is dispatched,
    and the world is as [login] left it. *)
Theorem idle_rerun_calls_no_helper i ss (w : S) ss1 w1 u task :
  login ss w = (Ret tt, ss1, w1) ->
  ss1 !! "user" = Some u ->
  nth_error objectives (objective_index i) = Some task ->
  run_clicked i = false ->
  outcome (run main i ss w) = Ret tt /\
  events (run main i ss w) = Invoke CallLogin :: page_events /\
  calls (events (run main i ss w)) = [CallLogin] /\
  final (run main i ss w) = {| widgets := i; session_state := ss1; world := w1 |}.
Proof.
  intros Hl Hu Ht Hb.
  unfold run, main, call_login, columns_spec, selectbox, text_area, button, index,
    get_widgets, get_session, draw, invoke, bind, outcome, events, final.
  simpl. rewrite Hl. simpl. rewrite Hu. simpl. rewrite Ht. simpl. rewrite Hb.
  repeat split.
Qed.
End Guards.

(** ** Helpers that do not return *)

Ltac run_through :=
  unfold run_analysis, session_user, call_check_limit, call_choose_models,
    call_time, call_run_parallel, tab_json, on_world, get_session, bind, invoke.

Section Failures.
Context {S : Type} {env : Environment S}.

Lemma failure_of_Ret {A} (r : Res A) f :
  failure_of r = Some f ->
  (r = Halt /\ f = Halt) \/ exists e, r = Raise e /\ f = Raise e.
Proof.
  destruct r as [a| |e]; simpl; intros H; [discriminate| |].
  - left. split; congruence.
  - right. exists e. split; congruence.
Qed.

(** X6.  A prompt that holds at least one character that is not white
    space passes the prompt check, whatever white space surrounds it: after
    the rate-limit check the run draws the status box and asks
    [choose_models] for the selected objective. *)
Theorem prompt_with_text_reaches_selection i ss (w : S) u task st :
  Checked i ss w u task st ->
  ~ blank (prompt_text i) ->
  exists rest,
    events (run main i ss w) =
      Invoke CallLogin :: page_events
      ++ [ Invoke (CallCheckLimit u);
           Draw [] (Status "Running model orchestration...");
           Invoke (CallChooseModels task) ]
      ++ rest.
Proof.
  intros [ss1 w1 u' task' w2 Hl Hu Ht Hb Hc] Hp.
  assert (Hp' : Py.truthy (Py.strip (prompt_text i)) = true).
  { destruct (Py.truthy (Py.strip (prompt_text i))) eqn:E; [reflexivity|].
    exfalso. apply Hp, strip_blank, E. }
  rewrite (main_front i ss w ss1 w1 u' task' Hl Hu Ht Hb). unfold events. cbn [snd].
  assert (H : exists rest,
             snd (run_analysis task' (prompt_text i)
                    {| widgets := i; session_state := ss1; world := w1 |})
             = [ Invoke (CallCheckLimit u');
                 Draw [] (Status "Running model orchestration...");
                 Invoke (CallChooseModels task') ] ++ rest).
  { unfold run_analysis.
    rewrite (bind_Ret session_user _ _ u' _ [])
      by (unfold session_user, get_session, bind; simpl; rewrite Hu; reflexivity).
    rewrite (bind_Ret (call_check_limit u') _ _ true
               {| widgets := i; session_state := ss1; world := w2 |}
               [Invoke (CallCheckLimit u')])
      by (unfold call_check_limit, on_world, invoke, bind; simpl; rewrite Hc; reflexivity).
    cbn [fst snd app negb].
    rewrite (bind_Ret (ret tt) _ _ tt _ []) by reflexivity.
    rewrite Hp'. cbn [fst snd app negb].
    rewrite (bind_Ret (ret tt) _ _ tt _ []) by reflexivity.
    cbn [fst snd app].
    rewrite (bind_Ret (draw [] (Status "Running model orchestration...")) _ _ tt _
               [Draw [] (Status "Running model orchestration...")]) by reflexivity.
    cbn [fst snd app].
    match goal with
    | |- exists rest, _ :: _ :: snd (bind ?m ?k ?s) = _ =>
        destruct (bind_events_head m k s (Invoke (CallChooseModels task')) [])
          as [rest Hrest]
    end.
    - unfold call_choose_models, on_world, invoke, bind. simpl.
      destruct (choose_models task' w2) as [[r| |e] w3]; reflexivity.
    - rewrite Hrest. exists rest. reflexivity. }
  destruct H as [rest Hrest]. rewrite Hrest. exists rest. reflexivity.
Qed.

(** X7.  When [choose_models] stops the script or raises, the run ends
    that way right there: the rate-limit check has been made and stays
    charged, nothing is dispatched, no result is drawn and no report is
    generated. *)
Theorem selection_failure_ends_run i ss (w : S) u task st r w3 f :
  Checked i ss w u task st ->
  Py.truthy (Py.strip (prompt_text i)) = true ->
  choose_models task (world st) = (r, w3) ->
  failure_of r = Some f ->
  outcome (run main i ss w) = f /\
  events (run main i ss w) =
    Invoke CallLogin :: page_events
    ++ [ Invoke (CallCheckLimit u);
         Draw [] (Status "Running model orchestration...");
         Invoke (CallChooseModels task) ] /\
  final (run main i ss w) = with_world st w3.
Proof.
  intros [ss1 w1 u' task' w2 Hl Hu Ht Hb Hc] Hp Hm Hf. simpl in Hm.
  rewrite (main_front i ss w ss1 w1 u' task' Hl Hu Ht Hb).
  unfold outcome, events, final. cbn [fst snd].
  run_through. simpl. rewrite Hu. simpl. rewrite Hc. simpl. rewrite Hp. simpl.
  rewrite Hm.
  destruct (failure_of_Ret r f Hf) as [[-> ->]|[e [-> ->]]]; repeat split.
Qed.

(** X8.  When [run_parallel] stops the script or raises, the run ends that
    way: the clock is not read a second time, the results area is not
    drawn, so no response of any model is shown, and no report is
    generated. *)
Theorem dispatch_failure_ends_run i ss (w : S) u task models r st f :
  Dispatched i ss w u task models r st ->
  failure_of r = Some f ->
  outcome (run main i ss w) = f /\
  events (run main i ss w) =
    Invoke CallLogin :: page_events
    ++ dispatch_events u task (prompt_text i) models /\
  final (run main i ss w) = st.
Proof.
  intros [u' task' st' models' w3 r' w4
            [ss1 w1 u'' task'' w2 Hl Hu Ht Hb Hc] Hp Hm Hr] Hf.
  simpl in Hm.
  rewrite (main_front i ss w ss1 w1 u'' task'' Hl Hu Ht Hb).
  unfold outcome, events, final. cbn [fst snd].
  run_through. simpl. rewrite Hu. simpl. rewrite Hc. simpl. rewrite Hp. simpl.
  rewrite Hm. simpl. rewrite Hr.
  destruct (failure_of_Ret r' f Hf) as [[-> ->]|[e [-> ->]]]; repeat split.
Qed.

(** X9.  When [run_parallel] returns an empty mapping, the run draws the
    title and the tabs of the results area and then raises in the Visual
    tab: no card and no JSON is drawn, [generate_report] is not called and
    no cost is shown. *)
Theorem empty_responses_raise_before_report i ss (w : S) u task models st :
  Dispatched i ss w u task models (Ret []) st ->
  outcome (run main i ss w) = Raise "StreamlitAPIException" /\
  events (run main i ss w) =
    Invoke CallLogin :: page_events
    ++ dispatch_events u task (prompt_text i) models ++ results_head /\
  final (run main i ss w) = with_world st (snd (time_time (world st))).
Proof.
  intros H.
  inversion H as [u' task' st' models' w3 r' w4
                    [ss1 w1 u'' task'' w2 Hl Hu Ht Hb Hc] Hp Hm Hr]; subst.
  simpl in Hm.
  rewrite (main_front i ss w ss1 w1 u task Hl Hu Ht Hb).
  unfold outcome, events, final. cbn [fst snd].
  run_through. simpl. rewrite Hu. simpl. rewrite Hc. simpl. rewrite Hp. simpl.
  rewrite Hm. simpl. rewrite Hr. simpl. repeat split.
Qed.

(** X10.  When [generate_report] stops the script or raises, the run ends
    that way after the responses have been presented: the cards and the
    raw JSON are drawn, but no cost, no latency and nothing of the
    Performance tab. *)
Theorem report_failure_ends_run_after_responses
  i ss (w : S) u task models responses st r w5 f :
  Dispatched i ss w u task models (Ret responses) st ->
  responses <> [] ->
  generate_report (prompt_text i) responses (snd (time_time (world st))) = (r, w5) ->
  failure_of r = Some f ->
  outcome (run main i ss w) = f /\
  events (run main i ss w) =
    Invoke CallLogin :: page_events
    ++ dispatch_events u task (prompt_text i) models ++ results_head
    ++ visual_events [Tab 0] responses
    ++ [ Draw [Tab 1] (Json responses);
         Invoke (CallGenerateReport (prompt_text i) responses) ] /\
  reported_cost (events (run main i ss w)) = [] /\
  final (run main i ss w) = with_world st w5.
Proof.
  intros H Hne Hg Hf.
  inversion H as [u' task' st' models' w3 r' w4
                    [ss1 w1 u'' task'' w2 Hl Hu Ht Hb Hc] Hp Hm Hr]; subst.
  simpl in Hm, Hg.
  assert (Hrun :
    run main i ss w =
      (f, {| widgets := i; session_state := ss1; world := w5 |},
       Invoke CallLogin :: page_events
       ++ dispatch_events u task (prompt_text i) models ++ results_head
       ++ visual_events [Tab 0] responses
       ++ [ Draw [Tab 1] (Json responses);
            Invoke (CallGenerateReport (prompt_text i) responses) ])).
  { rewrite (main_front i ss w ss1 w1 u task Hl Hu Ht Hb).
    run_through. simpl. rewrite Hu. simpl. rewrite Hc. simpl. rewrite Hp. simpl.
    rewrite Hm. simpl. rewrite Hr. simpl.
    rewrite tab_visual_run by exact Hne.
    unfold tab_cost, call_generate_report, on_world, bind, invoke. simpl.
    rewrite Hg.
    destruct (failure_of_Ret r f Hf) as [[-> ->]|[e [-> ->]]]; simpl;
      rewrite <- ?app_assoc; reflexivity. }
  rewrite Hrun. unfold outcome, events, final. cbn [fst snd].
  split; [reflexivity|]. split; [reflexivity|]. split; [|reflexivity].
  change (reported_cost (Invoke CallLogin :: page_events ++ ?x)) with (reported_cost x).
  unfold visual_events. rewrite !reported_cost_app.
  change (reported_cost (Draw [Tab 0] (Columns (repeat 1 (length responses)))
                         :: card_events [Tab 0] (Py.enumerate responses)))
    with (reported_cost (card_events [Tab 0] (Py.enumerate responses))).
  rewrite reported_cost_cards. reflexivity.
Qed.
End Failures.

(** ** The Performance tab with a metrics file *)

Section Performance.
Context {S : Type} {env : Environment S}.

(** X11.  When the metrics file exists, [read_csv] returns its rows, the
    conversion of the timestamps returns their instants and the resampling
    returns its counts, an accepted run ends normally, and the Performance
    tab draws, in this order, the bar chart of the mean latency per model,
    the bar chart of the mean response length per model and the line chart
    of the counts per minute. *)
Theorem performance_tab_draws_three_charts
  i ss (w : S) u task models responses elapsed st df instants counts :
  Accepted i ss w u task models responses elapsed st ->
  path_exists metrics_file (world st) = true ->
  read_csv metrics_file (world st) = Ret df ->
  to_datetime (map Pd.timestamp df) = Ret instants ->
  resample_count (combine instants (map Pd.model df)) = Ret counts ->
  outcome (run main i ss w) = Ret tt /\
  events (run main i ss w) =
    Invoke CallLogin :: page_events
    ++ analysis_events u task (prompt_text i) models responses elapsed
    ++ [ Invoke (CallPathExists metrics_file);
         Invoke (CallReadCsv metrics_file);
         Draw [Tab 3] (BarChart (Pd.groupby_model_mean Pd.latency df));
         Draw [Tab 3] (BarChart (Pd.groupby_model_mean Pd.response_length df));
         Draw [Tab 3] (LineChart counts) ] /\
  final (run main i ss w) = st.
Proof.
  intros H Hp Hcsv Hdt Hrs. rewrite (main_accepted _ _ _ _ _ _ _ _ _ H).
  rewrite (tab_performance_present [Tab 3] st df instants counts Hp Hcsv Hdt Hrs).
  repeat split.
Qed.

(** X20.  When the metrics file is read and the conversion of its
    timestamps raises, as it does for a timestamp outside the range of
    datetimes, an accepted run ends with that exception after the
    responses and the cost have been shown, and no chart is drawn. *)
Theorem timestamps_out_of_bounds_fail_before_charts
  i ss (w : S) u task models responses elapsed st df e :
  Accepted i ss w u task models responses elapsed st ->
  path_exists metrics_file (world st) = true ->
  read_csv metrics_file (world st) = Ret df ->
  to_datetime (map Pd.timestamp df) = Raise e ->
  outcome (run main i ss w) = Raise e /\
  events (run main i ss w) =
    Invoke CallLogin :: page_events
    ++ analysis_events u task (prompt_text i) models responses elapsed
    ++ [ Invoke (CallPathExists metrics_file); Invoke (CallReadCsv metrics_file) ] /\
  final (run main i ss w) = st.
Proof.
  intros H Hp Hcsv Hdt. rewrite (main_accepted _ _ _ _ _ _ _ _ _ H).
  rewrite (tab_performance_out_of_bounds [Tab 3] st df e Hp Hcsv Hdt).
  repeat split.
Qed.

(** X12.  When the metrics file exists and [read_csv] raises (or stops),
    an accepted run ends that way after everything else has been shown:
    the responses and the cost are drawn, the file is asked for once, and
    no chart is drawn. *)
Theorem unreadable_metrics_fail_after_results
  i ss (w : S) u task models responses elapsed st r f :
  Accepted i ss w u task models responses elapsed st ->
  path_exists metrics_file (world st) = true ->
  read_csv metrics_file (world st) = r ->
  failure_of r = Some f ->
  outcome (run main i ss w) = f /\
  events (run main i ss w) =
    Invoke CallLogin :: page_events
    ++ analysis_events u task (prompt_text i) models responses elapsed
    ++ [ Invoke (CallPathExists metrics_file); Invoke (CallReadCsv metrics_file) ] /\
  final (run main i ss w) = st.
Proof.
  intros H Hp Hcsv Hf. rewrite (main_accepted _ _ _ _ _ _ _ _ _ H).
  unfold outcome, events, final. cbn [fst snd].
  unfold tab_performance, call_path_exists, call_read_csv, read_world, bind, invoke.
  rewrite Hp. simpl. rewrite Hcsv.
  destruct (failure_of_Ret r f Hf) as [[-> ->]|[e [-> ->]]]; repeat split.
Qed.
End Performance.

(** ** The index of the bar charts *)

Lemma sorted_keys {V} (gs : list (string * V)) :
  StronglySorted (fun a b => String_as_OT.lt (fst a) (fst b)) gs ->
  StronglySorted String_as_OT.lt (map fst gs).
Proof.
  induction 1 as [|g gs Hs IH Hall]; simpl; constructor; [exact IH|].
  rewrite Forall_forall in Hall. rewrite Forall_forall. intros k Hk.
  apply list_elem_of_In, in_map_iff in Hk. destruct Hk as [g' [<- Hg']].
  apply Hall, list_elem_of_In, Hg'.
Qed.

Lemma sorted_NoDup (ks : list string) : StronglySorted String_as_OT.lt ks -> NoDup ks.
Proof.
  induction 1 as [|k ks Hs IH Hall]; constructor; [|exact IH].
  intros Hin. rewrite Forall_forall in Hall.
  exact (lt_neq _ _ (Hall k Hin) eq_refl).
Qed.

Lemma series_get_keys {V} m (s : list (string * V)) :
  In m (map fst s) <-> Pd.series_get m s <> None.
Proof.
  induction s as [|[k v] s IH]; simpl.
  - split; [tauto|congruence].
  - destruct (String.eqb_spec m k) as [->|Hne].
    + split; [discriminate|]. intros _. left. reflexivity.
    + rewrite <- IH. split; [intros [E|H]; [congruence|exact H]|]. intros H. right. exact H.
Qed.

Lemma records_of_nonempty m df :
  records_of m df <> [] <-> exists r, In r df /\ Pd.model r = Some m.
Proof.
  unfold records_of. split.
  - intros H. destruct (filter (fun r => Pd.model r = Some m) df) as [|r rs] eqn:E;
      [congruence|].
    exists r. assert (Hin : r ∈ filter (fun r => Pd.model r = Some m) df)
      by (rewrite E; left).
    apply list_elem_of_filter in Hin. destruct Hin as [Hm Hr].
    split; [apply list_elem_of_In, Hr|exact Hm].
  - intros [r [Hr Hm]] E.
    assert (Hin : r ∈ filter (fun r => Pd.model r = Some m) df)
      by (apply list_elem_of_filter; split; [exact Hm|apply list_elem_of_In, Hr]).
    rewrite E in Hin. inversion Hin.
Qed.

Lemma groupby_model_mean_index (col : Pd.Row -> float) (df : list Pd.Row) :
  NoDup (map fst (Pd.groupby_model_mean col df)) /\
  forall m,
    In m (map fst (Pd.groupby_model_mean col df)) <->
    exists r, In r df /\ Pd.model r = Some m.
Proof.
  split.
  - unfold Pd.groupby_model_mean. rewrite map_map. simpl.
    apply sorted_NoDup, sorted_keys.
    destruct (groups_of_fold col df [] []) as [Hs _]; [|exact Hs].
    split; [constructor|]. intros m. reflexivity.
  - intros m. rewrite series_get_keys, groupby_model_mean_get, <- records_of_nonempty.
    destruct (records_of m df); split; congruence.
Qed.

(** X13.  In an accepted run that finds the metrics file, reads its rows
    and converts their timestamps, each of the two bar charts has one bar per
    model of the file: no label is in the index of a chart twice, and a label
    is in it exactly when the file holds a row with that label.  A row
    without a label gives no bar. *)
Theorem bar_charts_have_one_bar_per_model
  {S : Type} {env : Environment S}
  i ss (w : S) u task models responses elapsed st df instants :
  Accepted i ss w u task models responses elapsed st ->
  path_exists metrics_file (world st) = true ->
  read_csv metrics_file (world st) = Ret df ->
  to_datetime (map Pd.timestamp df) = Ret instants ->
  exists latency_chart length_chart rest,
    events (run main i ss w) =
      Invoke CallLogin :: page_events
      ++ analysis_events u task (prompt_text i) models responses elapsed
      ++ [ Invoke (CallPathExists metrics_file);
           Invoke (CallReadCsv metrics_file);
           Draw [Tab 3] (BarChart latency_chart);
           Draw [Tab 3] (BarChart length_chart) ]
      ++ rest /\
    NoDup (map fst latency_chart) /\
    NoDup (map fst length_chart) /\
    forall m,
      (In m (map fst latency_chart) <-> exists r, In r df /\ Pd.model r = Some m) /\
      (In m (map fst length_chart) <-> exists r, In r df /\ Pd.model r = Some m).
Proof.
  intros H Hp Hcsv Hdt.
  destruct (tab_performance_means [Tab 3] st df instants Hp Hcsv Hdt) as [rest Hrest].
  exists (Pd.groupby_model_mean Pd.latency df),
         (Pd.groupby_model_mean Pd.response_length df), rest.
  split.
  - rewrite (main_accepted _ _ _ _ _ _ _ _ _ H). unfold events. cbn [snd].
    rewrite Hrest. reflexivity.
  - destruct (groupby_model_mean_index Pd.latency df) as [Hn1 Hi1].
    destruct (groupby_model_mean_index Pd.response_length df) as [Hn2 Hi2].
    split; [exact Hn1|]. split; [exact Hn2|].
    intros m. split; [apply Hi1|apply Hi2].
Qed.

(** ** The placeholder of the main page *)

Section Placeholders.
Context {S : Type} {env : Environment S}.

Lemma main_active_models : emits active_models_fixed anything (main (S:=S)).
Proof.
  unfold main.
  do 9 (eapply emits_bind; [emits_block trivial_event|intros ? ?]).
  eapply emits_bind; [apply emits_selectbox; exact I|intros task Htask].
  do 7 (eapply emits_bind; [emits_block trivial_event|intros ? ?]).
  match goal with |- emits _ _ (if ?b then _ else _) => destruct b end;
    [|apply emits_ret].
  unfold run_analysis. emits_block trivial_event.
Qed.

(** X15.  The metric [Active Models] of the main page is a constant: in
    every run it shows the value 3 with the note Operational, whatever
    models [choose_models] selects for the objective. *)
Theorem active_models_is_constant i ss (w : S) shown :
  In shown (omap active_models_of (events (run main i ss w))) ->
  shown = ("3", "Operational").
Proof.
  intros H. apply list_elem_of_In, list_elem_of_omap in H.
  destruct H as [e [He Hs]].
  destruct (main_active_models {| widgets := i; session_state := ss; world := w |})
    as [Hall _].
  rewrite Forall_forall in Hall. specialize (Hall e He).
  unfold active_models_fixed in Hall. rewrite Hs in Hall. exact Hall.
Qed.
End Placeholders.

(** ** What no run does *)

Section Never.
Context {S : Type} {env : Environment S}.

Lemma emits_stop_any {A} (P : Event -> Prop) (Q : A -> Prop) : emits P Q (@stop S A).
Proof. intros st. split; [constructor|discriminate]. Qed.

Lemma run_analysis_dispatch_has_text task prompt :
  emits dispatch_has_text anything (run_analysis (S:=S) task prompt).
Proof.
  unfold run_analysis.
  eapply emits_bind; [emits_block trivial_event|intros user _].
  eapply emits_bind; [emits_block trivial_event|intros allowed _].
  eapply emits_bind; [emits_block trivial_event|intros _ _].
  destruct (Py.truthy (Py.strip prompt)) eqn:E; simpl negb; cbv iota.
  - eapply emits_bind; [emits_block trivial_event|intros _ _].
    emits_block trivial_event.
  - eapply (emits_bind _ (fun _ => False)); [|intros _ []].
    eapply emits_bind; [apply emits_draw; exact I|intros _ _].
    apply emits_stop_any.
Qed.

Lemma main_dispatch_has_text : emits dispatch_has_text anything (main (S:=S)).
Proof.
  unfold main.
  do 9 (eapply emits_bind; [emits_block trivial_event|intros ? ?]).
  eapply emits_bind; [apply emits_selectbox; exact I|intros task Htask].
  do 7 (eapply emits_bind; [emits_block trivial_event|intros ? ?]).
  match goal with |- emits _ _ (if ?b then _ else _) => destruct b end;
    [apply run_analysis_dispatch_has_text|apply emits_ret].
Qed.

(** X16.  No run dispatches a blank prompt: whatever the helpers do, a
    prompt that reaches [run_parallel] holds at least one character that is
    not white space. *)
Theorem blank_prompt_is_never_dispatched i ss (w : S) prompt models :
  In (CallRunParallel prompt models) (calls (events (run main i ss w))) ->
  ~ blank prompt.
Proof.
  intros H Hb. apply calls_In in H.
  destruct (main_dispatch_has_text {| widgets := i; session_state := ss; world := w |})
    as [Hall _].
  rewrite Forall_forall in Hall. apply list_elem_of_In in H.
  specialize (Hall _ H). simpl in Hall.
  apply strip_blank in Hb. congruence.
Qed.

Lemma tab_visual_returns_nonempty tab1 responses :
  emits report_has_responses (fun _ => responses <> [])
    (tab_visual (S:=S) tab1 responses).
Proof.
  destruct responses as [|r rs].
  - intros st. rewrite tab_visual_empty. split; [constructor|discriminate].
  - eapply emits_weaken; [intros _ _; discriminate|].
    emits_block trivial_event.
Qed.

Lemma run_analysis_report_has_responses task prompt :
  emits report_has_responses anything (run_analysis (S:=S) task prompt).
Proof.
  unfold run_analysis.
  do 15 (eapply emits_bind; [emits_block trivial_event|intros ? ?]).
  eapply emits_bind; [apply tab_visual_returns_nonempty|intros ? Hne; cbv beta in Hne].
  emits_block trivial_event.
Qed.

Lemma main_report_has_responses : emits report_has_responses anything (main (S:=S)).
Proof.
  unfold main.
  do 9 (eapply emits_bind; [emits_block trivial_event|intros ? ?]).
  eapply emits_bind; [apply emits_selectbox; exact I|intros task Htask].
  do 7 (eapply emits_bind; [emits_block trivial_event|intros ? ?]).
  match goal with |- emits _ _ (if ?b then _ else _) => destruct b end;
    [apply run_analysis_report_has_responses|apply emits_ret].
Qed.

(** X19.  No run generates a report over nothing: whatever the helpers
    do, the mapping passed to [generate_report] holds at least one
    response. *)
Theorem report_is_never_generated_over_nothing i ss (w : S) prompt responses :
  In (CallGenerateReport prompt responses) (calls (events (run main i ss w))) ->
  responses <> [].
Proof.
  intros H. apply calls_In in H.
  destruct (main_report_has_responses {| widgets := i; session_state := ss; world := w |})
    as [Hall _].
  rewrite Forall_forall in Hall. apply list_elem_of_In in H.
  exact (Hall _ H).
Qed.

(** X17.  When [login] itself stops the script or raises, the run ends
    that way at once, also when the session holds a user: nothing of the
    main page is drawn and no other helper is called. *)
Theorem login_failure_ends_run i ss (w : S) r ss1 w1 f :
  login ss w = (r, ss1, w1) ->
  failure_of r = Some f ->
  outcome (run main i ss w) = f /\
  events (run main i ss w) = [Invoke CallLogin] /\
  final (run main i ss w) = {| widgets := i; session_state := ss1; world := w1 |}.
Proof.
  intros Hl Hf. unfold run, main, call_login, invoke, bind, outcome, events, final.
  simpl. rewrite Hl.
  destruct (failure_of_Ret r f Hf) as [[-> ->]|[e [-> ->]]]; repeat split.
Qed.
End Never.

(** ** The rounding of the elapsed time *)

Lemma round_half_even_close x :
  (x - (1 # 2) <= inject_Z (Py.round_half_even x) <= x + (1 # 2))%Q.
Proof.
  unfold Py.round_half_even.
  pose proof (Qfloor_le x) as Hlo. pose proof (Qlt_floor x) as Hhi.
  rewrite inject_Z_plus in Hhi. change (inject_Z 1) with 1%Q in Hhi.
  destruct (Qcompare_spec (x - inject_Z (Qfloor x)) (1 # 2)) as [E|E|E];
    [destruct (Z.even (Qfloor x))| |]; rewrite ?inject_Z_plus;
    change (inject_Z 1) with 1%Q; lra.
Qed.

(** X18.  The elapsed time that the Cost tab shows, [round(t, 2)], is a
    whole number of hundredths of a second and differs from the measured
    time [t] by at most half a hundredth. *)
Theorem elapsed_is_rounded_to_hundredths (t : Q) :
  (t - (1 # 200) <= Py.round2 t <= t + (1 # 200))%Q /\
  (Py.round2 t * 100 == inject_Z (Py.round_half_even (t * 100)))%Q.
Proof.
  unfold Py.round2. rewrite Qred_correct.
  pose proof (round_half_even_close (t * 100)) as H.
  split.
  - set (r := inject_Z (Py.round_half_even (t * 100))) in *.
    assert (r / 100 == r * (1 # 100))%Q as -> by (unfold Qdiv; reflexivity).
    lra.
  - field.
Qed.

(** * The further properties on concrete requests *)

Lemma script_draws_sidebar_then_runs_main_witness :
  outcome (run script Demo.request ∅ Demo.world0)
    = outcome (run main Demo.request ∅ Demo.world0) /\
  events (run script Demo.request ∅ Demo.world0)
    = setup_events ++ sidebar_events ∅ ++ events (run main Demo.request ∅ Demo.world0).
Proof.
  destruct (script_draws_sidebar_then_runs_main (env:=Demo.env)
              Demo.request ∅ Demo.world0 eq_refl)
    as [Ho [_ [He _]]].
  split; [exact Ho|exact He].
Defined.

Lemma import_failure_stops_script_witness :
  run (script (env:=Faulty.env_import)) Demo.request ∅ Demo.world0 =
    (Halt, {| widgets := Demo.request; session_state := ∅; world := Demo.world0 |},
     [Draw [] (Error "No module named 'auth'")]).
Proof.
  exact (import_failure_stops_script (env:=Faulty.env_import)
           Demo.request ∅ Demo.world0 "No module named 'auth'" eq_refl).
Defined.

Lemma unauthenticated_visitor_sees_sidebar_only_witness :
  outcome (run script Demo.request ∅ Demo.world_anonymous) = Halt /\
  events (run script Demo.request ∅ Demo.world_anonymous)
    = setup_events ++ sidebar_events ∅ ++ [Invoke CallLogin].
Proof.
  edestruct (unauthenticated_visitor_sees_sidebar_only Demo.request ∅ Demo.world_anonymous)
    as [Ho [He _]]; [reflexivity|reflexivity|reflexivity|].
  split; [exact Ho|exact He].
Defined.

Lemma idle_rerun_calls_no_helper_witness :
  outcome (run main Faulty.idle_request ∅ Demo.world0) = Ret tt /\
  calls (events (run main Faulty.idle_request ∅ Demo.world0)) = [CallLogin] /\
  Demo.charged "u1" (world (final (run main Faulty.idle_request ∅ Demo.world0))) = 0.
Proof.
  edestruct (idle_rerun_calls_no_helper Faulty.idle_request ∅ Demo.world0)
    as [Ho [_ [Hc Hf]]]; [reflexivity|reflexivity|reflexivity|reflexivity|].
  split; [exact Ho|]. split; [exact Hc|]. rewrite Hf. reflexivity.
Defined.

Lemma prompt_with_text_reaches_selection_witness :
  ~ blank (prompt_text Faulty.padded_request) /\
  exists rest,
    events (run main Faulty.padded_request ∅ Demo.world0) =
      Invoke CallLogin :: page_events
      ++ [ Invoke (CallCheckLimit "u1");
           Draw [] (Status "Running model orchestration...");
           Invoke (CallChooseModels "Fast Response") ]
      ++ rest.
Proof.
  assert (Hp : ~ blank (prompt_text Faulty.padded_request)).
  { intros Hb. apply strip_blank in Hb. vm_compute in Hb. discriminate Hb. }
  split; [exact Hp|].
  eapply (prompt_with_text_reaches_selection Faulty.padded_request ∅ Demo.world0);
    [|exact Hp].
  eapply (checked_run Faulty.padded_request ∅ Demo.world0);
    [reflexivity|reflexivity|reflexivity|reflexivity|reflexivity].
Defined.

Lemma selection_failure_ends_run_witness :
  outcome (run (main (env:=Faulty.env_routing)) Demo.request ∅ Demo.world0)
    = Raise "RoutingExhausted" /\
  calls (events (run (main (env:=Faulty.env_routing)) Demo.request ∅ Demo.world0))
    = [CallLogin; CallCheckLimit "u1"; CallChooseModels "Coding"].
Proof.
  edestruct (selection_failure_ends_run (env:=Faulty.env_routing)
               Demo.request ∅ Demo.world0) as [Ho [He _]].
  - eapply (checked_run (env:=Faulty.env_routing) Demo.request ∅ Demo.world0);
      [reflexivity|reflexivity|reflexivity|reflexivity|reflexivity].
  - reflexivity.
  - reflexivity.
  - reflexivity.
  - split; [exact Ho|]. rewrite He. reflexivity.
Defined.

Lemma dispatch_failure_ends_run_witness :
  outcome (run (main (env:=Faulty.env_dispatch)) Demo.request ∅ Demo.world0)
    = Raise "TimeoutError" /\
  events (run (main (env:=Faulty.env_dispatch)) Demo.request ∅ Demo.world0)
    = Invoke CallLogin :: page_events
      ++ dispatch_events "u1" "Coding" (prompt_text Demo.request)
           ["coder-large"; "coder-small"].
Proof.
  edestruct (dispatch_failure_ends_run (env:=Faulty.env_dispatch)
               Demo.request ∅ Demo.world0) as [Ho [He _]].
  - eapply (dispatched_run (env:=Faulty.env_dispatch) Demo.request ∅ Demo.world0);
      [ eapply (checked_run (env:=Faulty.env_dispatch) Demo.request ∅ Demo.world0);
          [reflexivity|reflexivity|reflexivity|reflexivity|reflexivity]
      | reflexivity | reflexivity | reflexivity ].
  - reflexivity.
  - split; [exact Ho|exact He].
Defined.

Lemma empty_responses_raise_before_report_witness :
  outcome (run (main (env:=Faulty.env_silent)) Demo.request ∅ Demo.world0)
    = Raise "StreamlitAPIException" /\
  calls (events (run (main (env:=Faulty.env_silent)) Demo.request ∅ Demo.world0))
    = [ CallLogin; CallCheckLimit "u1"; CallChooseModels "Coding"; CallTime;
        CallRunParallel "write a sort function" ["coder-large"; "coder-small"];
        CallTime ].
Proof.
  edestruct (empty_responses_raise_before_report (env:=Faulty.env_silent)
               Demo.request ∅ Demo.world0) as [Ho [He _]].
  - eapply (dispatched_run (env:=Faulty.env_silent) Demo.request ∅ Demo.world0);
      [ eapply (checked_run (env:=Faulty.env_silent) Demo.request ∅ Demo.world0);
          [reflexivity|reflexivity|reflexivity|reflexivity|reflexivity]
      | reflexivity | reflexivity | reflexivity ].
  - split; [exact Ho|]. rewrite He. reflexivity.
Defined.

Lemma report_failure_ends_run_after_responses_witness :
  outcome (run (main (env:=Faulty.env_report)) Demo.request ∅ Demo.world0)
    = Raise "OSError" /\
  reported_cost (events (run (main (env:=Faulty.env_report)) Demo.request ∅ Demo.world0))
    = [] /\
  In (Draw [Tab 1] (Json Demo.answers))
     (events (run (main (env:=Faulty.env_report)) Demo.request ∅ Demo.world0)).
Proof.
  edestruct (report_failure_ends_run_after_responses (env:=Faulty.env_report)
               Demo.request ∅ Demo.world0) as [Ho [He [Hc _]]].
  - eapply (dispatched_run (env:=Faulty.env_report) Demo.request ∅ Demo.world0);
      [ eapply (checked_run (env:=Faulty.env_report) Demo.request ∅ Demo.world0);
          [reflexivity|reflexivity|reflexivity|reflexivity|reflexivity]
      | reflexivity | reflexivity | reflexivity ].
  - discriminate.
  - reflexivity.
  - reflexivity.
  - split; [exact Ho|]. split; [exact Hc|].
    vm_compute. repeat (first [left; reflexivity|right]).
Defined.

(** With the recorder on, the report of the sample run creates the metrics
    file, which the Performance tab of the same run then reads. *)
Lemma demo_accepted_recorded :
  exists elapsed st df instants counts,
    Accepted Demo.request ∅ Demo.world0 "u1" "Coding"
      ["coder-large"; "coder-small"] Demo.answers elapsed st /\
    path_exists metrics_file (world st) = true /\
    read_csv metrics_file (world st) = Ret df /\
    length df = 2 /\
    to_datetime (map Pd.timestamp df) = Ret instants /\
    resample_count (combine instants (map Pd.model df)) = Ret counts.
Proof.
  eexists. eexists. eexists. eexists. eexists.
  split; [|split; [|split; [|split; [|split]]]].
  - eapply (accepted_run Demo.request ∅ Demo.world0);
      [ reflexivity | reflexivity | reflexivity | reflexivity | reflexivity
      | reflexivity | reflexivity | reflexivity | discriminate | reflexivity ].
  - reflexivity.
  - reflexivity.
  - reflexivity.
  - reflexivity.
  - reflexivity.
Defined.

Lemma performance_tab_draws_three_charts_witness :
  outcome (run main Demo.request ∅ Demo.world0) = Ret tt /\
  exists df counts,
    length df = 2 /\
    In (Draw [Tab 3] (BarChart (Pd.groupby_model_mean Pd.latency df)))
       (events (run main Demo.request ∅ Demo.world0)) /\
    In (Draw [Tab 3] (LineChart counts))
       (events (run main Demo.request ∅ Demo.world0)).
Proof.
  destruct demo_accepted_recorded
    as [elapsed [st [df [instants [counts [H [Hp [Hcsv [Hlen [Hdt Hrs]]]]]]]]]].
  destruct (performance_tab_draws_three_charts Demo.request ∅ Demo.world0
              _ _ _ _ _ _ df instants counts H Hp Hcsv Hdt Hrs) as [Ho [He _]].
  split; [exact Ho|]. exists df, counts. split; [exact Hlen|].
  rewrite He. split.
  - right. apply in_or_app. right. apply in_or_app. right.
    right. right. left. reflexivity.
  - right. apply in_or_app. right. apply in_or_app. right.
    right. right. right. right. left. reflexivity.
Defined.

Lemma timestamps_out_of_bounds_fail_before_charts_witness :
  outcome (run main Demo.request ∅ Faulty.world_far_future)
    = Raise "OutOfBoundsDatetime" /\
  reported_cost (events (run main Demo.request ∅ Faulty.world_far_future))
    = ["$0.0042"].
Proof.
  edestruct (timestamps_out_of_bounds_fail_before_charts
               Demo.request ∅ Faulty.world_far_future) as [Ho [He _]].
  - eapply (accepted_run Demo.request ∅ Faulty.world_far_future);
      [ reflexivity | reflexivity | reflexivity | reflexivity | reflexivity
      | reflexivity | reflexivity | reflexivity | discriminate | reflexivity ].
  - reflexivity.
  - reflexivity.
  - reflexivity.
  - split; [exact Ho|]. rewrite He. reflexivity.
Defined.

Lemma bar_charts_have_one_bar_per_model_witness :
  exists latency_chart length_chart,
    In (Draw [Tab 3] (BarChart latency_chart))
       (events (run main Demo.request ∅ Demo.world_measured)) /\
    In (Draw [Tab 3] (BarChart length_chart))
       (events (run main Demo.request ∅ Demo.world_measured)) /\
    NoDup (map fst latency_chart) /\
    (In "A" (map fst latency_chart) <->
     exists r, In r Demo.three_rows /\ Pd.model r = Some "A").
Proof.
  destruct demo_accepted_measured as [elapsed [st [H [Hp [Hcsv Hdt]]]]].
  destruct (bar_charts_have_one_bar_per_model
              Demo.request ∅ Demo.world_measured _ _ _ _ _ _ _ _ H Hp Hcsv Hdt)
    as [latency_chart [length_chart [rest [Hev [Hn [_ Hm]]]]]].
  exists latency_chart, length_chart.
  split; [|split; [|split; [exact Hn|exact (proj1 (Hm "A"))]]].
  - rewrite Hev. right. apply in_or_app. right. apply in_or_app. right.
    right. right. left. reflexivity.
  - rewrite Hev. right. apply in_or_app. right. apply in_or_app. right.
    right. right. right. left. reflexivity.
Defined.

Lemma unreadable_metrics_fail_after_results_witness :
  outcome (run (main (env:=Faulty.env_csv)) Demo.request ∅ Demo.world0)
    = Raise "ParserError" /\
  reported_cost (events (run (main (env:=Faulty.env_csv)) Demo.request ∅ Demo.world0))
    = ["$0.0042"].
Proof.
  edestruct (unreadable_metrics_fail_after_results (env:=Faulty.env_csv)
               Demo.request ∅ Demo.world0) as [Ho [He _]].
  - eapply (accepted_run (env:=Faulty.env_csv) Demo.request ∅ Demo.world0);
      [ reflexivity | reflexivity | reflexivity | reflexivity | reflexivity
      | reflexivity | reflexivity | reflexivity | discriminate | reflexivity ].
  - reflexivity.
  - reflexivity.
  - reflexivity.
  - split; [exact Ho|]. rewrite He. reflexivity.
Defined.

Lemma active_models_is_constant_witness :
  In ("3", "Operational")
     (omap active_models_of (events (run main Demo.request ∅ Demo.world0))) /\
  In (CallRunParallel "write a sort function" ["coder-large"; "coder-small"])
     (calls (events (run main Demo.request ∅ Demo.world0))) /\
  ("3", "Operational") = ("3", "Operational").
Proof.
  assert (H : In ("3", "Operational")
                (omap active_models_of (events (run main Demo.request ∅ Demo.world0))))
    by (vm_compute; left; reflexivity).
  split; [exact H|]. split; [vm_compute; do 4 right; left; reflexivity|].
  exact (active_models_is_constant Demo.request ∅ Demo.world0 _ H).
Defined.

Lemma blank_prompt_is_never_dispatched_witness :
  In (CallRunParallel "write a sort function" ["coder-large"; "coder-small"])
     (calls (events (run main Demo.request ∅ Demo.world0))) /\
  ~ blank "write a sort function".
Proof.
  assert (H : In (CallRunParallel "write a sort function" ["coder-large"; "coder-small"])
                (calls (events (run main Demo.request ∅ Demo.world0))))
    by (vm_compute; do 4 right; left; reflexivity).
  split; [exact H|].
  exact (blank_prompt_is_never_dispatched Demo.request ∅ Demo.world0 _ _ H).
Defined.

Lemma report_is_never_generated_over_nothing_witness :
  In (CallGenerateReport "write a sort function" Demo.answers)
     (calls (events (run main Demo.request ∅ Demo.world0))) /\
  Demo.answers <> [].
Proof.
  assert (H : In (CallGenerateReport "write a sort function" Demo.answers)
                (calls (events (run main Demo.request ∅ Demo.world0))))
    by (vm_compute; do 6 right; left; reflexivity).
  split; [exact H|].
  exact (report_is_never_generated_over_nothing Demo.request ∅ Demo.world0 _ _ H).
Defined.

Lemma login_failure_ends_run_witness :
  outcome (run (main (env:=Faulty.env_login)) Demo.request ∅ Demo.world0) = Halt /\
  events (run (main (env:=Faulty.env_login)) Demo.request ∅ Demo.world0)
    = [Invoke CallLogin].
Proof.
  edestruct (login_failure_ends_run (env:=Faulty.env_login) Demo.request ∅ Demo.world0)
    as [Ho [He _]]; [reflexivity|reflexivity|].
  split; [exact Ho|exact He].
Defined.

(** The group mean on a file with a row without a label and a cell without a
    number: the row gives no bar, the cell is left out of the mean of its
    model, and a model whose cells are all missing has the bar NaN. *)
Example rows_without_label_have_no_bar :
  let df :=
    [ {| Pd.timestamp := 960%float; Pd.model := Some "B";
         Pd.latency := 0.5%float; Pd.response_length := PrimFloat.nan |};
      {| Pd.timestamp := 970%float; Pd.model := None;
         Pd.latency := 8%float; Pd.response_length := 80%float |};
      {| Pd.timestamp := 980%float; Pd.model := Some "A";
         Pd.latency := PrimFloat.nan; Pd.response_length := 30%float |};
      {| Pd.timestamp := 990%float; Pd.model := Some "B";
         Pd.latency := 1.5%float; Pd.response_length := PrimFloat.nan |} ] in
  map fst (Pd.groupby_model_mean Pd.latency df) = ["A"; "B"] /\
  Pd.series_get "B" (Pd.groupby_model_mean Pd.latency df) = Some 1%float /\
  Pd.series_get "A" (Pd.groupby_model_mean Pd.response_length df) = Some 30%float /\
  (exists x, Pd.series_get "A" (Pd.groupby_model_mean Pd.latency df) = Some x /\
             PrimFloat.is_nan x = true) /\
  (exists x, Pd.series_get "B" (Pd.groupby_model_mean Pd.response_length df) = Some x /\
             PrimFloat.is_nan x = true).
Proof.
  cbv zeta. split; [reflexivity|]. split; [reflexivity|]. split; [reflexivity|].
  split; eexists; split; reflexivity.
Qed.
